(** * Stateful document processing: learning and decision subsystem

    A shallow embedding of the TypeScript sources of the invoice agent
    (rule evaluator, memory store, cognitive engine, decision engine and
    induction engine) together with the properties its specification
    states about them.

    Modelling conventions.
    - JavaScript numbers are rationals ([Q]).  The arithmetic of the
      decision engine and of the induction engine rounds every literal
      and every result with the host's rounding function [fl]; the
      confidence formula of the cognitive engine is in exact arithmetic.
      A number held by a value is finite; NaN and the infinities appear
      only as results of a conversion to a number ([JsNumber]).
    - Strings are [string]; the case and white-space functions are the
      ASCII ones.
    - A value of TypeScript type [any] is a [JsValue]; property names are
      ordinary names (not [__proto__]).
    - SQLite tables with a primary key are finite maps ([gmap]) from the
      key to the row.
    - Library and platform functions the sources call (SHA-256, the
      json-logic interpreter, the regular-expression engine, JSON
      serialisation, the rfc6902 differ, number formatting and parsing,
      date parsing) are the fields of the class [Host]; every theorem
      holds for every host.  The wall clock is an explicit argument: a
      call reads one value of it.
    - A function that can throw returns an [option], [None] for the
      exception. *)

From Stdlib Require Import Ascii String DecimalString QArith Qabs Qpower Qminmax.
From Stdlib Require Import Sorted Permutation.
From stdpp Require Import gmap strings list fin_maps.

#[local] Set Warnings "-register-all".

Local Open Scope string_scope.

(* ===================================================================== *)
(** * JavaScript values                                                   *)
(* ===================================================================== *)

Inductive JsValue : Type :=
| JUndefined
| JNull
| JBool (b : bool)
| JNum (q : Q)
| JStr (s : string)
| JArr (items : list JsValue)
| JObj (props : list (string * JsValue)).

(** [!!v] of JavaScript (ToBoolean). *)
Definition truthy (v : JsValue) : bool :=
  match v with
  | JUndefined | JNull => false
  | JBool b => b
  | JNum q => negb (Qeq_bool q 0)
  | JStr s => negb (String.eqb s "")
  | JArr _ | JObj _ => true
  end.

(** [v === undefined] and [v === null]. *)
Definition is_undefined (v : JsValue) : bool :=
  match v with JUndefined => true | _ => false end.

Definition is_null (v : JsValue) : bool :=
  match v with JNull => true | _ => false end.

(** [x < y] and [x > y] on numbers. *)
Definition Qlt_bool (x y : Q) : bool := negb (Qle_bool y x).
Definition Qgt_bool (x y : Q) : bool := Qlt_bool y x.

(** [a || b] on values. *)
Definition js_or (a b : JsValue) : JsValue := if truthy a then a else b.

(** [a === b].  Primitives compare by value; two arrays or objects are
    compared by identity, and an array or object read from one document is
    never the object read from another one. *)
Definition strict_eq (a b : JsValue) : bool :=
  match a, b with
  | JUndefined, JUndefined => true
  | JNull, JNull => true
  | JBool x, JBool y => Bool.eqb x y
  | JNum x, JNum y => Qeq_bool x y
  | JStr x, JStr y => String.eqb x y
  | _, _ => false
  end.

(** Own-property lookup [o[k]] in a property list; the last assignment to
    a key is the one kept, so keys are unique and the first hit is the
    value. *)
Fixpoint assoc_get {A} (k : string) (l : list (string * A)) : option A :=
  match l with
  | [] => None
  | (k', v) :: l' => if String.eqb k k' then Some v else assoc_get k l'
  end.

(** [m.set(k, v)] of a [Map], and [o[k] = v] on a plain object: an
    existing key keeps its position and takes the new value, a new key is
    appended. *)
Fixpoint assoc_set {A} (k : string) (v : A) (l : list (string * A))
  : list (string * A) :=
  match l with
  | [] => [(k, v)]
  | (k', v') :: l' =>
      if String.eqb k k' then (k, v) :: l' else (k', v') :: assoc_set k v l'
  end.

Definition assoc_has {A} (k : string) (l : list (string * A)) : bool :=
  match assoc_get k l with Some _ => true | None => false end.

(* ===================================================================== *)
(** * Strings                                                             *)
(* ===================================================================== *)

(** The one-character string holding a double quote. *)
Definition dquote : string := String (ascii_of_nat 34) EmptyString.

Definition is_upper (a : ascii) : bool :=
  let n := nat_of_ascii a in (65 <=? n)%nat && (n <=? 90)%nat.

Definition lower_ascii (a : ascii) : ascii :=
  if is_upper a then ascii_of_nat (nat_of_ascii a + 32) else a.

(** [s.toLowerCase()]. *)
Fixpoint toLowerCase (s : string) : string :=
  match s with
  | EmptyString => EmptyString
  | String a s' => String (lower_ascii a) (toLowerCase s')
  end.

(** The characters matched by [\s] and stripped by [trim]: TAB, LF, VT,
    FF, CR and SPACE. *)
Definition is_ws (a : ascii) : bool :=
  let n := nat_of_ascii a in ((9 <=? n)%nat && (n <=? 13)%nat) || (n =? 32)%nat.

Fixpoint trimStart (s : string) : string :=
  match s with
  | EmptyString => EmptyString
  | String a s' => if is_ws a then trimStart s' else s
  end.

Definition trimEnd (s : string) : string :=
  String.rev (trimStart (String.rev s)).

(** [s.trim()]. *)
Definition trim (s : string) : string := trimEnd (trimStart s).

(** [s.includes(sub)]. *)
Fixpoint includes (s sub : string) : bool :=
  String.prefix sub s ||
  match s with
  | EmptyString => false
  | String _ s' => includes s' sub
  end.

(** [s.split(/\s+/)]: the pieces between maximal runs of white space; a
    leading or trailing run leaves an empty first or last piece.  [cur] is
    the piece being read and [in_ws] tells whether the previous character
    was white space. *)
Fixpoint split_ws_go (cur : string) (in_ws : bool) (s : string) : list string :=
  match s with
  | EmptyString => [String.rev cur]
  | String a s' =>
      if is_ws a then
        if in_ws then split_ws_go cur true s'
        else String.rev cur :: split_ws_go EmptyString true s'
      else split_ws_go (String a cur) false s'
  end.

Definition split_ws (s : string) : list string :=
  split_ws_go EmptyString false s.

(** [l.slice(-n)] for an array of more than [n] elements, and the whole
    array otherwise. *)
Definition slice_last {A} (n : nat) (l : list A) : list A :=
  drop (length l - n) l.

(** ** Property enumeration order

    [Object.entries] and [Object.keys] list the keys that are array
    indices (canonical decimal numerals below 2^32 - 1) first, in
    ascending numeric order, and then the other keys in the order in
    which they were created. *)

Definition digit_val (a : ascii) : option N :=
  let n := N_of_ascii a in
  if ((48 <=? n) && (n <=? 57))%N then Some (n - 48)%N else None.

Fixpoint parse_digits (acc : N) (s : string) : option N :=
  match s with
  | EmptyString => Some acc
  | String a s' =>
      match digit_val a with
      | Some d => parse_digits (acc * 10 + d)%N s'
      | None => None
      end
  end.

Definition array_index (k : string) : option N :=
  match k with
  | EmptyString => None
  | String a rest =>
      if Ascii.eqb a "0"%char && negb (String.eqb rest "") then None
      else
        match parse_digits 0%N k with
        | Some n => if (n <=? 4294967294)%N then Some n else None
        | None => None
        end
  end.

Definition is_index_key {A} (kv : string * A) : bool :=
  match array_index (fst kv) with Some _ => true | None => false end.

Definition index_of_key {A} (kv : string * A) : N :=
  match array_index (fst kv) with Some n => n | None => 0%N end.

Fixpoint insert_by_index {A} (kv : string * A) (l : list (string * A))
  : list (string * A) :=
  match l with
  | [] => [kv]
  | kv' :: l' =>
      if (index_of_key kv <=? index_of_key kv')%N then kv :: l
      else kv' :: insert_by_index kv l'
  end.

Fixpoint sort_by_index {A} (l : list (string * A)) : list (string * A) :=
  match l with
  | [] => []
  | kv :: l' => insert_by_index kv (sort_by_index l')
  end.

Definition Object_entries {A} (props : list (string * A)) : list (string * A) :=
  (sort_by_index (List.filter is_index_key props)
     ++ List.filter (fun kv => negb (is_index_key kv)) props)%list.

(* ===================================================================== *)
(** * Host functions                                                      *)
(* ===================================================================== *)

(** One operation of an RFC 6902 patch. *)
Inductive PatchOp := OpAdd | OpRemove | OpReplace | OpMove | OpCopy | OpTest.

Record PatchOperation := {
  op : PatchOp;
  path : string;
  value : JsValue;
}.

(** The result of a conversion to a number. *)
Inductive JsNumber :=
| NFin (q : Q)
| NNaN
| NInf (positive : bool).

(** The library and platform functions the sources call.
    - [fl q] is [q] rounded to a double.
    - [string_toNumber s] is the number a string converts to.
    - [jsonLogic_apply rule data] is [jsonLogic.apply]; [None] when it
      throws.
    - [regex_match pattern text] is [text.match(new RegExp(pattern, 'i'))]:
      [None] when the constructor throws a SyntaxError, [Some None] when
      the pattern does not match, [Some (Some groups)] for a match, where
      [groups] is the match array (the whole match first, [JUndefined] for
      a group that took no part).
    - [createPatch a b] is the patch of rfc6902 from [a] to [b]; the
      patch from a document to itself is empty.
    - [Date_getTime s] is [new Date(s).getTime()] in milliseconds. *)
Class Host := {
  sha256_hex : string -> string;
  md5_hex : string -> string;
  fl : Q -> Q;
  number_toString : Q -> string;
  number_toFixed2 : Q -> string;
  string_toNumber : string -> JsNumber;
  JSON_stringify : JsValue -> string;
  jsonLogic_apply : JsValue -> JsValue -> option JsValue;
  regex_match : string -> string -> option (option (list JsValue));
  createPatch : JsValue -> JsValue -> list PatchOperation;
  createPatch_same : forall document, createPatch document document = [];
  Date_getTime : string -> Z;
}.

(** [new RegExp(pattern, 'i').test(text)]; [None] on a SyntaxError. *)
Definition regex_test `{Host} (pattern text : string) : option bool :=
  match regex_match pattern text with
  | None => None
  | Some None => Some false
  | Some (Some _) => Some true
  end.

(** String conversion of a template literal, [`${v}`]. *)
Fixpoint ToString `{Host} (v : JsValue) : string :=
  match v with
  | JUndefined => "undefined"
  | JNull => "null"
  | JBool true => "true"
  | JBool false => "false"
  | JNum q => number_toString q
  | JStr s => s
  | JArr items =>
      String.concat ","
        (map (fun x => match x with
                       | JUndefined | JNull => ""
                       | _ => ToString x
                       end) items)
  | JObj _ => "[object Object]"
  end.

(** Conversion to a number, as the operators [-] and [>] do it. *)
Definition ToNumber `{Host} (v : JsValue) : JsNumber :=
  match v with
  | JUndefined => NNaN
  | JNull => NFin 0
  | JBool true => NFin 1
  | JBool false => NFin 0
  | JNum q => NFin q
  | JStr s => string_toNumber s
  | JArr _ => string_toNumber (ToString v)
  | JObj _ => NNaN
  end.

(** [a - b] on numbers. *)
Definition num_sub `{Host} (a b : JsNumber) : JsNumber :=
  match a, b with
  | NNaN, _ | _, NNaN => NNaN
  | NFin x, NFin y => NFin (fl (x - y))
  | NInf p, NFin _ => NInf p
  | NFin _, NInf p => NInf (negb p)
  | NInf p, NInf p' => if Bool.eqb p p' then NNaN else NInf p
  end.

(** [Math.abs(a)]. *)
Definition num_abs (a : JsNumber) : JsNumber :=
  match a with
  | NFin x => NFin (Qabs x)
  | NNaN => NNaN
  | NInf _ => NInf true
  end.

(** [a > c] for a finite [c]. *)
Definition num_gt (a : JsNumber) (c : Q) : bool :=
  match a with
  | NFin x => Qgt_bool x c
  | NNaN => false
  | NInf p => p
  end.

(** [a / c] and [a * c] for a finite positive [c]. *)
Definition num_div_by `{Host} (a : JsNumber) (c : Q) : JsNumber :=
  match a with
  | NFin x => NFin (fl (x / c))
  | other => other
  end.

Definition num_mul_by `{Host} (a : JsNumber) (c : Q) : JsNumber :=
  match a with
  | NFin x => NFin (fl (x * c))
  | other => other
  end.

(** [a < c] for a finite [c]. *)
Definition num_lt (a : JsNumber) (c : Q) : bool :=
  match a with
  | NFin x => Qlt_bool x c
  | NNaN => false
  | NInf p => negb p
  end.

(** A number, a boolean or [null] as the number [+] takes it for. *)
Definition as_number (v : JsValue) : option Q :=
  match v with
  | JNum q => Some q
  | JBool true => Some 1%Q
  | JBool false | JNull => Some 0%Q
  | _ => None
  end.

(** [a + b] when neither operand is [undefined]: the rounded sum when
    both are numbers, booleans or [null], and otherwise the concatenation
    of the two operands as strings. *)
Definition js_plus `{Host} (a b : JsValue) : JsValue :=
  match as_number a, as_number b with
  | Some x, Some y => JNum (fl (x + y))
  | _, _ => JStr (ToString a ++ ToString b)
  end.

(* ===================================================================== *)
(** * Data model (types/index.ts)                                         *)
(* ===================================================================== *)

(** An invoice.  The fields the schema declares optional are [JsValue]s,
    [JUndefined] when the property is absent, so that the tests the
    sources make on them ([=== undefined], [=== null], truthiness) keep
    their meaning. *)
Record Invoice := {
  inv_id : string;
  inv_vendor : string;
  inv_invoiceNumber : string;
  inv_date : JsValue;
  inv_serviceDate : JsValue;
  inv_dueDate : JsValue;
  inv_currency : JsValue;
  inv_netAmount : JsValue;
  inv_taxAmount : JsValue;
  inv_totalAmount : JsValue;
  inv_lineItems : JsValue;
  inv_paymentTerms : JsValue;
  inv_poNumber : JsValue;
  inv_rawText : string;
}.

(** [(invoice as any)[field]]. *)
Definition invoice_get (inv : Invoice) (field : string) : JsValue :=
  if String.eqb field "id" then JStr (inv_id inv)
  else if String.eqb field "vendor" then JStr (inv_vendor inv)
  else if String.eqb field "invoiceNumber" then JStr (inv_invoiceNumber inv)
  else if String.eqb field "date" then inv_date inv
  else if String.eqb field "serviceDate" then inv_serviceDate inv
  else if String.eqb field "dueDate" then inv_dueDate inv
  else if String.eqb field "currency" then inv_currency inv
  else if String.eqb field "netAmount" then inv_netAmount inv
  else if String.eqb field "taxAmount" then inv_taxAmount inv
  else if String.eqb field "totalAmount" then inv_totalAmount inv
  else if String.eqb field "lineItems" then inv_lineItems inv
  else if String.eqb field "paymentTerms" then inv_paymentTerms inv
  else if String.eqb field "poNumber" then inv_poNumber inv
  else if String.eqb field "rawText" then JStr (inv_rawText inv)
  else JUndefined.

(** The invoice as the object handed to the rule interpreter and to the
    differ: the properties that are not [undefined], in schema order. *)
Definition invoice_to_js (inv : Invoice) : JsValue :=
  JObj (List.filter (fun kv => negb (is_undefined (snd kv)))
          (map (fun k => (k, invoice_get inv k))
             ["id"; "vendor"; "invoiceNumber"; "date"; "serviceDate";
              "dueDate"; "currency"; "netAmount"; "taxAmount";
              "totalAmount"; "lineItems"; "paymentTerms"; "poNumber";
              "rawText"])).

Inductive RuleType := REGEX | ANCHOR | POSITIONAL | FORMULA | MAP.

Record VendorPattern := {
  vp_ruleType : RuleType;
  vp_logic : JsValue;
  vp_confidence : Q;
  vp_sampleEvidence : JsValue;
  vp_createdAt : string;
  vp_lastUsed : option string;
}.

Record VendorMemory := {
  vm_id : string;
  vm_vendorName : string;
  vm_fingerprints : list string;
  vm_defaults : option (list (string * JsValue));
  vm_patterns : list (string * VendorPattern);
  vm_createdAt : string;
  vm_updatedAt : string;
}.

Record CorrectionMemory := {
  cm_id : string;
  cm_triggerCondition : JsValue;
  cm_action : JsValue;
  cm_description : string;
  cm_confidence : Q;
  cm_decayFactor : Q;
  cm_createdAt : string;
  cm_lastUsed : option string;
}.

Inductive Outcome := ACCEPTED | REJECTED | MODIFIED.

Record ResolutionHistoryItem := {
  rh_invoiceId : string;
  rh_outcome : Outcome;
  rh_timestamp : string;
}.

Record ResolutionMemory := {
  rm_ruleId : string;
  rm_totalApplications : nat;
  rm_acceptedCount : nat;
  rm_rejectedCount : nat;
  rm_lastUsed : option string;
  rm_history : list ResolutionHistoryItem;
}.

Record AuditTrailEntry := {
  at_step : string;
  at_action : string;
  at_field : option string;
  at_newValue : JsValue;
  at_reasoning : string;
  at_confidence : option Q;
  at_timestamp : string;
}.

Record ProcessingContext := {
  invoice : Invoice;
  vendorMemory : option VendorMemory;
  correctionMemories : list CorrectionMemory;
  resolutionMemories : list (string * ResolutionMemory);
  auditTrail : list AuditTrailEntry;
}.

Inductive Source := OCR | VENDOR_PATTERN | CORRECTION_RULE | HUMAN.

Record FieldConfidence := {
  fc_field : string;
  fc_value : JsValue;
  fc_confidence : Q;
  fc_source : Source;
  fc_ruleId : option string;
  fc_reasoning : string;
}.

(** The output contract: [fields] are the properties spread from the
    merged output object; the five properties written after the spread
    are the record's own fields. *)
Record OutputContract := {
  fields : list (string * JsValue);
  requiresHumanReview : bool;
  reasoning : string;
  confidence : Q;
  oc_auditTrail : list AuditTrailEntry;
  processedAt : string;
}.

Record InductionResult := {
  vendorRules : list (string * VendorPattern);
  correctionRules : list CorrectionMemory;
}.

(** An optional string of the sources is truthy when it is set and not
    empty. *)
Definition truthy_str (s : option string) : bool :=
  match s with Some s => negb (String.eqb s "") | None => false end.

(* ===================================================================== *)
(** * Memory store (core/memory/store.ts)                                 *)
(* ===================================================================== *)

Record ProcessedInvoice := {
  pi_invoiceId : string;
  pi_vendor : string;
  pi_invoiceNumber : string;
  pi_totalAmount : JsValue;
  pi_processedAt : string;
}.

(** A row of [resolution_memories]; the rule id is the key. *)
Record ResolutionRow := {
  row_totalApplications : nat;
  row_acceptedCount : nat;
  row_rejectedCount : nat;
  row_lastUsed : option string;
  row_history : list ResolutionHistoryItem;
}.

(** The four tables.  [vendor_memories] and [correction_memories] are read
    back as whole tables, so they are kept as row lists in insertion
    order; the other two are only read by primary key.  The JSON columns
    hold the value that was written. *)
Record MemoryStore := {
  vendor_memories : list VendorMemory;
  correction_memories : list CorrectionMemory;
  resolution_memories : gmap string ResolutionRow;
  processed_invoices : gmap string ProcessedInvoice;
}.

(** The store of a fresh database. *)
Definition empty_store : MemoryStore :=
  {| vendor_memories := []; correction_memories := [];
     resolution_memories := ∅; processed_invoices := ∅ |}.

(** [INSERT OR REPLACE] into a row list: the row with the same key is
    deleted and the new row is added at the end. *)
Definition insert_or_replace {A} (key : A -> string) (row : A) (rows : list A)
  : list A :=
  (List.filter (fun r => negb (String.eqb (key r) (key row))) rows ++ [row])%list.

Definition set_vendor_memories (rows : list VendorMemory) (st : MemoryStore) :=
  {| vendor_memories := rows;
     correction_memories := correction_memories st;
     resolution_memories := resolution_memories st;
     processed_invoices := processed_invoices st |}.

Definition set_correction_memories (rows : list CorrectionMemory) (st : MemoryStore) :=
  {| vendor_memories := vendor_memories st;
     correction_memories := rows;
     resolution_memories := resolution_memories st;
     processed_invoices := processed_invoices st |}.

Definition set_resolution_memories (m : gmap string ResolutionRow) (st : MemoryStore) :=
  {| vendor_memories := vendor_memories st;
     correction_memories := correction_memories st;
     resolution_memories := m;
     processed_invoices := processed_invoices st |}.

Definition set_processed_invoices (m : gmap string ProcessedInvoice) (st : MemoryStore) :=
  {| vendor_memories := vendor_memories st;
     correction_memories := correction_memories st;
     resolution_memories := resolution_memories st;
     processed_invoices := m |}.

(** The row as it is read back: an absent [defaults] was written as the
    empty object. *)
Definition stored_vendor (memory : VendorMemory) : VendorMemory :=
  {| vm_id := vm_id memory;
     vm_vendorName := vm_vendorName memory;
     vm_fingerprints := vm_fingerprints memory;
     vm_defaults := Some (default [] (vm_defaults memory));
     vm_patterns := vm_patterns memory;
     vm_createdAt := vm_createdAt memory;
     vm_updatedAt := vm_updatedAt memory |}.

Definition saveVendorMemory (memory : VendorMemory) (st : MemoryStore) : MemoryStore :=
  set_vendor_memories
    (insert_or_replace vm_id (stored_vendor memory) (vendor_memories st)) st.

Definition getVendorMemory (st : MemoryStore) (id : string) : option VendorMemory :=
  List.find (fun r => String.eqb (vm_id r) id) (vendor_memories st).

Definition findVendorByName (st : MemoryStore) (name : string) : option VendorMemory :=
  List.find (fun r => String.eqb (vm_vendorName r) name) (vendor_memories st).

Definition getAllVendorMemories (st : MemoryStore) : list VendorMemory :=
  vendor_memories st.

Definition updateVendorPattern (vendorId field : string) (pattern : VendorPattern)
    (now : string) (st : MemoryStore) : MemoryStore :=
  match getVendorMemory st vendorId with
  | None => st
  | Some memory =>
      saveVendorMemory
        {| vm_id := vm_id memory;
           vm_vendorName := vm_vendorName memory;
           vm_fingerprints := vm_fingerprints memory;
           vm_defaults := vm_defaults memory;
           vm_patterns := assoc_set field pattern (vm_patterns memory);
           vm_createdAt := vm_createdAt memory;
           vm_updatedAt := now |} st
  end.

(** [memory.lastUsed || null] as it is written and read back. *)
Definition or_null (s : option string) : option string :=
  if truthy_str s then s else None.

Definition stored_correction (memory : CorrectionMemory) : CorrectionMemory :=
  {| cm_id := cm_id memory;
     cm_triggerCondition := cm_triggerCondition memory;
     cm_action := cm_action memory;
     cm_description := cm_description memory;
     cm_confidence := cm_confidence memory;
     cm_decayFactor := cm_decayFactor memory;
     cm_createdAt := cm_createdAt memory;
     cm_lastUsed := or_null (cm_lastUsed memory) |}.

Definition saveCorrectionMemory (memory : CorrectionMemory) (st : MemoryStore)
  : MemoryStore :=
  set_correction_memories
    (insert_or_replace cm_id (stored_correction memory) (correction_memories st)) st.

Definition getAllCorrectionMemories (st : MemoryStore) : list CorrectionMemory :=
  correction_memories st.

Definition updateCorrectionLastUsed (id now : string) (st : MemoryStore) : MemoryStore :=
  set_correction_memories
    (map (fun r =>
            if String.eqb (cm_id r) id then
              {| cm_id := cm_id r;
                 cm_triggerCondition := cm_triggerCondition r;
                 cm_action := cm_action r;
                 cm_description := cm_description r;
                 cm_confidence := cm_confidence r;
                 cm_decayFactor := cm_decayFactor r;
                 cm_createdAt := cm_createdAt r;
                 cm_lastUsed := Some now |}
            else r)
       (correction_memories st)) st.

Definition saveResolutionMemory (memory : ResolutionMemory) (st : MemoryStore)
  : MemoryStore :=
  set_resolution_memories
    (<[rm_ruleId memory :=
         {| row_totalApplications := rm_totalApplications memory;
            row_acceptedCount := rm_acceptedCount memory;
            row_rejectedCount := rm_rejectedCount memory;
            row_lastUsed := or_null (rm_lastUsed memory);
            row_history := rm_history memory |}]>
       (resolution_memories st)) st.

(** The record returned for a rule that has no row. *)
Definition default_resolution (ruleId : string) : ResolutionMemory :=
  {| rm_ruleId := ruleId;
     rm_totalApplications := 0;
     rm_acceptedCount := 0;
     rm_rejectedCount := 0;
     rm_lastUsed := None;
     rm_history := [] |}.

Definition getResolutionMemory (st : MemoryStore) (ruleId : string) : ResolutionMemory :=
  match resolution_memories st !! ruleId with
  | None => default_resolution ruleId
  | Some row =>
      {| rm_ruleId := ruleId;
         rm_totalApplications := row_totalApplications row;
         rm_acceptedCount := row_acceptedCount row;
         rm_rejectedCount := row_rejectedCount row;
         rm_lastUsed := row_lastUsed row;
         rm_history := row_history row |}
  end.

(** [recordResolution]; [tUsed] and [tEntry] are the two readings of the
    clock. *)
Definition recordResolution (ruleId invoiceId : string) (outcome : Outcome)
    (tUsed tEntry : string) (st : MemoryStore) : MemoryStore :=
  let memory := getResolutionMemory st ruleId in
  let total := S (rm_totalApplications memory) in
  let accepted :=
    match outcome with
    | ACCEPTED => S (rm_acceptedCount memory)
    | _ => rm_acceptedCount memory
    end in
  let rejected :=
    match outcome with
    | REJECTED => S (rm_rejectedCount memory)
    | _ => rm_rejectedCount memory
    end in
  let history :=
    (rm_history memory ++
      [{| rh_invoiceId := invoiceId; rh_outcome := outcome;
          rh_timestamp := tEntry |}])%list in
  let history :=
    if (100 <? length history)%nat then slice_last 100 history else history in
  saveResolutionMemory
    {| rm_ruleId := rm_ruleId memory;
       rm_totalApplications := total;
       rm_acceptedCount := accepted;
       rm_rejectedCount := rejected;
       rm_lastUsed := Some tUsed;
       rm_history := history |} st.

(** The string hashed into the fingerprint and its digest. *)
Definition generateInvoiceFingerprint `{Host}
    (vendor invoiceNumber : string) (date totalAmount : JsValue) : string :=
  let data :=
    vendor ++ "|" ++ invoiceNumber ++ "|" ++ ToString (js_or date (JStr ""))
      ++ "|" ++ ToString (js_or totalAmount (JNum 0)) in
  sha256_hex data.

Definition isDuplicate (st : MemoryStore) (fingerprint : string) : bool :=
  match processed_invoices st !! fingerprint with
  | Some _ => true
  | None => false
  end.

Definition recordProcessedInvoice (fingerprint invoiceId vendor invoiceNumber : string)
    (totalAmount : JsValue) (now : string) (st : MemoryStore) : MemoryStore :=
  set_processed_invoices
    (<[fingerprint :=
         {| pi_invoiceId := invoiceId;
            pi_vendor := vendor;
            pi_invoiceNumber := invoiceNumber;
            pi_totalAmount := js_or totalAmount JNull;
            pi_processedAt := now |}]>
       (processed_invoices st)) st.

(* ===================================================================== *)
(** * Dates (utils/date.ts)                                               *)
(* ===================================================================== *)

(** [daysBetween]: whole days between two timestamps. *)
Definition daysBetween `{Host} (date1 date2 : string) : Z :=
  let d1 := Date_getTime date1 in
  let d2 := Date_getTime date2 in
  let diff := Z.abs (d2 - d1) in
  (diff / (1000 * 60 * 60 * 24))%Z.

(* ===================================================================== *)
(** * Rule evaluator (core/logic/engine.ts)                               *)
(* ===================================================================== *)

(** The custom operations.  An operation whose body can throw outside a
    [try] block returns an [option], [None] for the exception. *)



(** [Object.entries(v)] for a value. *)
Definition nat_to_string (n : nat) : string :=
  NilEmpty.string_of_uint (Nat.to_uint n).




Definition containsIgnoreCase (text search : JsValue) : option bool :=
  if negb (truthy text) || negb (truthy search) then Some false
  else
    match text, search with
    | JStr t, JStr s => Some (includes (toLowerCase t) (toLowerCase s))
    | _, _ => None
    end.

Definition currencies : list string := ["EUR"; "USD"; "GBP"; "CHF"; "JPY"].

Fixpoint first_currency `{Host} (text : string) (cs : list string) : option JsValue :=
  match cs with
  | [] => Some JNull
  | currency :: cs' =>
      match regex_test ("\b" ++ currency ++ "\b") text with
      | None => None
      | Some true => Some (JStr currency)
      | Some false => first_currency text cs'
      end
  end.

Definition extractCurrency `{Host} (text : JsValue) : option JsValue :=
  if negb (truthy text) then Some JNull
  else first_currency (ToString text) currencies.

(** [executeRule]: the interpreter's result, [null] when it throws. *)
Definition executeRule `{Host} (rule data : JsValue) : JsValue :=
  match jsonLogic_apply rule data with
  | Some v => v
  | None => JNull
  end.

Definition isValidRule `{Host} (rule : JsValue) : bool :=
  match jsonLogic_apply rule (JObj []) with
  | Some _ => true
  | None => false
  end.

Definition var_ (name : string) : JsValue := JObj [("var", JStr name)].

Definition createRegexRule (pattern sourceField : string) (groupIndex : nat)
  : JsValue :=
  JObj [("regexExtract",
         JArr [JStr pattern; var_ sourceField; JNum (inject_Z (Z.of_nat groupIndex))])].

Definition createMapRule (mapping : list (string * JsValue)) (sourceField : string)
  : JsValue :=
  JObj [("mapDescription", JArr [var_ sourceField; JObj mapping])].

Definition createArithmeticRule `{Host} (formula sourceField : string) : JsValue :=
  if String.eqb formula "inclusive_vat_19" then
    JObj [("-", JArr [var_ sourceField;
                      JObj [("/", JArr [var_ sourceField; JNum (fl (119 # 100))])]])]
  else if String.eqb formula "exclusive_vat_19" then
    JObj [("*", JArr [var_ sourceField; JNum (fl (19 # 100))])]
  else if String.eqb formula "net_from_gross_19" then
    JObj [("/", JArr [var_ sourceField; JNum (fl (119 # 100))])]
  else JNull.

Definition createConditionRule (condition thenValue elseValue : JsValue) : JsValue :=
  JObj [("if", JArr [condition; thenValue; elseValue])].

(* ===================================================================== *)
(** * Cognitive engine (domain/cognitive-engine.ts)                       *)
(* ===================================================================== *)

(** [calculateConfidence]; [now] is the clock reading. *)
Definition calculateConfidence `{Host} (now : string) (baseConfidence : Q)
    (resolution : option ResolutionMemory) (lastUsed : option string) : Q :=
  match resolution with
  | None => (baseConfidence * (8 # 10))%Q
  | Some r =>
      if (rm_totalApplications r =? 0)%nat then (baseConfidence * (8 # 10))%Q
      else
        let memoryConfidence :=
          ((inject_Z (Z.of_nat (rm_acceptedCount r)) + 1)
             / (inject_Z (Z.of_nat (rm_totalApplications r)) + 2))%Q in
        let decayFactor :=
          match lastUsed with
          | Some used =>
              if truthy_str lastUsed
              then Qpower (99 # 100) (daysBetween used now)
              else 1%Q
          | None => 1%Q
          end in
        let alpha := (6 # 10)%Q in
        let finalConfidence :=
          (alpha * baseConfidence + (1 - alpha) * memoryConfidence)%Q in
        Qmax (1 # 10) (finalConfidence * decayFactor)%Q
  end.

(** [extractFieldFromAction] on the serialised action. *)
Definition extractFieldFromActionStr (actionStr : string) : option string :=
  if includes actionStr "taxAmount" || includes actionStr "tax" then Some "taxAmount"
  else if includes actionStr "netAmount" || includes actionStr "net" then Some "netAmount"
  else if includes actionStr "totalAmount" || includes actionStr "total" then Some "totalAmount"
  else None.

Definition extractFieldFromAction `{Host} (action : JsValue) : option string :=
  extractFieldFromActionStr (JSON_stringify action).

(** [result !== null && result !== undefined]. *)
Definition has_value (v : JsValue) : bool := negb (is_null v || is_undefined v).

Definition Proposals := list (string * FieldConfidence).

(** The state the three passes of [apply] update: the proposal map and
    the audit trail of the context. *)
Definition ApplyState : Type := Proposals * list AuditTrailEntry.

Definition apply_entry (action field : string) (newValue : JsValue)
    (reasoning : string) (confidence : Q) (now : string) : AuditTrailEntry :=
  {| at_step := "APPLY"; at_action := action; at_field := Some field;
     at_newValue := newValue; at_reasoning := reasoning;
     at_confidence := Some confidence; at_timestamp := now |}.

(** Pass 1, one vendor pattern. *)
Definition apply_pattern `{Host} (now : string) (context : ProcessingContext)
    (vm : VendorMemory) (st : ApplyState) (entry : string * VendorPattern)
  : ApplyState :=
  let '(field, pattern) := entry in
  let result := executeRule (vp_logic pattern) (invoice_to_js (invoice context)) in
  if has_value result then
    let patternId := vm_id vm ++ "-" ++ field in
    let resolution := assoc_get patternId (resolutionMemories context) in
    let confidence :=
      calculateConfidence now (vp_confidence pattern) resolution (vp_lastUsed pattern) in
    (assoc_set field
       {| fc_field := field; fc_value := result; fc_confidence := confidence;
          fc_source := VENDOR_PATTERN; fc_ruleId := Some patternId;
          fc_reasoning :=
            "Applied vendor pattern for " ++ dquote ++ vm_vendorName vm ++ dquote |}
       (fst st),
     (snd st ++
        [apply_entry "VENDOR_PATTERN" field result
           ("Extracted using vendor pattern (confidence: "
              ++ number_toFixed2 confidence ++ ")")
           confidence now])%list)
  else st.

(** Pass 2, one vendor default. *)
Definition apply_default `{Host} (now : string) (st : ApplyState)
    (entry : string * JsValue) : ApplyState :=
  let '(field, value) := entry in
  if negb (assoc_has field (fst st)) && truthy value then
    (assoc_set field
       {| fc_field := field; fc_value := value; fc_confidence := fl (9 # 10);
          fc_source := VENDOR_PATTERN; fc_ruleId := None;
          fc_reasoning := "Applied vendor default value" |}
       (fst st),
     (snd st ++
        [apply_entry "VENDOR_DEFAULT" field value "Applied vendor default value"
           (fl (9 # 10)) now])%list)
  else st.

(** Pass 3, one correction memory. *)
Definition apply_correction `{Host} (now : string) (context : ProcessingContext)
    (st : ApplyState) (correction : CorrectionMemory) : ApplyState :=
  let data := invoice_to_js (invoice context) in
  let triggered := executeRule (cm_triggerCondition correction) data in
  if truthy triggered then
    let result := executeRule (cm_action correction) data in
    if has_value result then
      match extractFieldFromAction (cm_action correction) with
      | Some field =>
          let existing := assoc_get field (fst st) in
          let replace :=
            match existing with
            | None => true
            | Some e => Qlt_bool (fc_confidence e) (cm_confidence correction)
            end in
          if replace then
            let resolution :=
              assoc_get (cm_id correction) (resolutionMemories context) in
            let confidence :=
              calculateConfidence now (cm_confidence correction) resolution
                (cm_lastUsed correction) in
            (assoc_set field
               {| fc_field := field; fc_value := result; fc_confidence := confidence;
                  fc_source := CORRECTION_RULE; fc_ruleId := Some (cm_id correction);
                  fc_reasoning := cm_description correction |}
               (fst st),
             (snd st ++
                [apply_entry "CORRECTION_RULE" field result
                   (cm_description correction) confidence now])%list)
          else st
      | None => st
      end
    else st
  else st.

(** [apply]: the proposals and the context's audit trail after the three
    passes. *)
Definition apply `{Host} (now : string) (context : ProcessingContext) : ApplyState :=
  let st0 : ApplyState := ([], auditTrail context) in
  let st1 :=
    match vendorMemory context with
    | Some vm =>
        fold_left (apply_pattern now context vm) (Object_entries (vm_patterns vm)) st0
    | None => st0
    end in
  let st2 :=
    match vendorMemory context with
    | Some vm =>
        match vm_defaults vm with
        | Some defaults => fold_left (apply_default now) (Object_entries defaults) st1
        | None => st1
        end
    | None => st1
    end in
  fold_left (apply_correction now context) (correctionMemories context) st2.

(* ===================================================================== *)
(** * Decision engine (domain/decision-engine.ts)                         *)
(* ===================================================================== *)

Record ReviewDecision := {
  required : bool;
  rd_reasoning : string;
}.

(** [output[field]]. *)
Definition output_get (output : list (string * JsValue)) (field : string) : JsValue :=
  default JUndefined (assoc_get field output).

(** The loop over the proposals: every proposal is written to the output
    and its confidence collected. *)
Definition apply_proposal (acc : list (string * JsValue) * list Q)
    (entry : string * FieldConfidence) : list (string * JsValue) * list Q :=
  (assoc_set (fst entry) (fc_value (snd entry)) (fst acc),
   (snd acc ++ [fc_confidence (snd entry)])%list).

Definition fill_fields : list string :=
  ["date"; "serviceDate"; "dueDate"; "totalAmount"; "taxAmount";
   "netAmount"; "currency"; "lineItems"; "paymentTerms"; "poNumber"].

(** The loop over the remaining fields of the original invoice. *)
Definition fill_field `{Host} (inv : Invoice)
    (acc : list (string * JsValue) * list Q) (field : string)
  : list (string * JsValue) * list Q :=
  if negb (assoc_has field (fst acc)) && negb (is_undefined (invoice_get inv field))
  then
    (assoc_set field (invoice_get inv field) (fst acc),
     if is_null (invoice_get inv field) || is_undefined (invoice_get inv field)
     then (snd acc ++ [0%Q])%list
     else (snd acc ++ [fl (7 # 10)])%list)
  else acc.

(** The output object and the confidence list that [decide] builds before
    it looks at the store. *)
Definition merge_output `{Host} (inv : Invoice) (proposals : Proposals)
  : list (string * JsValue) * list Q :=
  let output0 :=
    [("invoiceId", JStr (inv_id inv)); ("vendor", JStr (inv_vendor inv));
     ("invoiceNumber", JStr (inv_invoiceNumber inv))] in
  let acc1 := fold_left apply_proposal proposals (output0, []) in
  fold_left (fill_field inv) fill_fields acc1.

(** [confidences.reduce((a, b) => a + b, 0) / confidences.length], and 0
    for the empty list. *)
Definition overall_confidence `{Host} (confidences : list Q) : Q :=
  if (0 <? length confidences)%nat
  then fl (fold_left (fun a b => fl (a + b)%Q) confidences 0%Q
           / inject_Z (Z.of_nat (length confidences)))%Q
  else 0%Q.

Definition criticalFields : list string := ["totalAmount"; "date"; "vendor"].

(** Rule 3 on one critical field. *)
Definition critical_fails `{Host} (output : list (string * JsValue))
    (proposals : Proposals) (field : string) : bool :=
  negb (truthy (output_get output field))
  || match assoc_get field proposals with
     | Some proposal => Qlt_bool (fc_confidence proposal) (fl (9 # 10))
     | None => false
     end.

(** [output.lineItems.length > 0] for a truthy [lineItems]. *)
Definition length_positive `{Host} (v : JsValue) : bool :=
  match v with
  | JArr items => (0 <? length items)%nat
  | JStr s => (0 <? String.length s)%nat
  | JObj props => num_gt (ToNumber (default JUndefined (assoc_get "length" props))) 0
  | _ => false
  end.

(** One step of the reduction: [sum + (item.amount || 0)]; [None] when
    [item] is [null] or [undefined], whose property cannot be read. *)
Definition add_item `{Host} (sum : option JsValue) (item : JsValue)
  : option JsValue :=
  match sum, item with
  | None, _ => None
  | Some _, (JUndefined | JNull) => None
  | Some s, JObj props =>
      Some (js_plus s (js_or (default JUndefined (assoc_get "amount" props)) (JNum 0)))
  | Some s, _ => Some (js_plus s (JNum 0))
  end.

(** [lineItems.reduce((sum, item) => sum + (item.amount || 0), 0)]: a
    number, or a string once an amount that is not a number was added;
    [None] when [lineItems] is not an array (it has no [reduce]) or an
    item cannot be read. *)
Definition lineItemSum `{Host} (lineItems : JsValue) : option JsValue :=
  match lineItems with
  | JArr items => fold_left add_item items (Some (JNum 0))
  | _ => None
  end.

(** Rule 5: [Some None] when the rule does not fire, [Some (Some r)] when
    it fires with reasoning [r], [None] when the JavaScript throws. *)
Definition amount_mismatch `{Host} (output : list (string * JsValue))
  : option (option string) :=
  let lineItems := output_get output "lineItems" in
  let totalAmount := output_get output "totalAmount" in
  if truthy lineItems && length_positive lineItems && truthy totalAmount then
    match lineItemSum lineItems with
    | None => None
    | Some sum =>
        let diff := num_abs (num_sub (ToNumber totalAmount) (ToNumber sum)) in
        if num_gt diff (fl (1 # 100)) && num_gt (ToNumber sum) 0 then
          Some (Some ("Total amount mismatch: invoice total ("
                        ++ ToString totalAmount
                        ++ ") differs from line item sum ("
                        ++ ToString sum ++ ")"))
        else Some None
    end
  else Some None.

Definition shouldEscalate `{Host} (context : ProcessingContext)
    (output : list (string * JsValue)) (overallConfidence : Q)
    (proposals : Proposals) (isDuplicate : bool) : option ReviewDecision :=
  if isDuplicate then
    Some {| required := true;
            rd_reasoning :=
              "Duplicate invoice detected: matches fingerprint of previously processed invoice" |}
  else
    match vendorMemory context with
    | None =>
        Some {| required := true;
                rd_reasoning :=
                  "New vendor: no existing memory found, requires initial human review" |}
    | Some _ =>
        match List.find (critical_fails output proposals) criticalFields with
        | Some field =>
            Some {| required := true;
                    rd_reasoning :=
                      "Critical field " ++ dquote ++ field ++ dquote
                        ++ " is missing or has low confidence" |}
        | None =>
            if Qlt_bool overallConfidence (fl (8 # 10)) then
              Some {| required := true;
                      rd_reasoning :=
                        "Overall confidence (" ++ number_toFixed2 overallConfidence
                          ++ ") below threshold (0.80)" |}
            else
              match amount_mismatch output with
              | None => None
              | Some (Some r) => Some {| required := true; rd_reasoning := r |}
              | Some None =>
                  Some {| required := false;
                          rd_reasoning :=
                            "High confidence automation: overall score "
                              ++ number_toFixed2 overallConfidence |}
              end
        end
    end.

(** [decide]: the contract and the store after the call; [None] when
    [shouldEscalate] throws, which happens before the store is written.
    The contract's audit trail is the context's array, to which the
    DECIDE entry is appended. *)
Definition decide `{Host} (now : string) (context : ProcessingContext)
    (proposals : Proposals) (st : MemoryStore)
  : option (OutputContract * MemoryStore) :=
  let inv := invoice context in
  let '(output, confidences) := merge_output inv proposals in
  let overallConfidence := overall_confidence confidences in
  let fingerprint :=
    generateInvoiceFingerprint (inv_vendor inv) (inv_invoiceNumber inv)
      (inv_date inv) (inv_totalAmount inv) in
  let dup := isDuplicate st fingerprint in
  match shouldEscalate context output overallConfidence proposals dup with
  | None => None
  | Some reviewDecision =>
      let st' :=
        if dup then st
        else recordProcessedInvoice fingerprint (inv_id inv) (inv_vendor inv)
               (inv_invoiceNumber inv) (inv_totalAmount inv) now st in
      Some
        ({| fields := output;
            requiresHumanReview := required reviewDecision;
            reasoning := rd_reasoning reviewDecision;
            confidence := overallConfidence;
            oc_auditTrail :=
              (auditTrail context ++
                 [{| at_step := "DECIDE";
                     at_action :=
                       if required reviewDecision then "ESCALATE" else "AUTO_APPROVE";
                     at_field := None;
                     at_newValue := JUndefined;
                     at_reasoning := rd_reasoning reviewDecision;
                     at_confidence := Some overallConfidence;
                     at_timestamp := now |}])%list;
            processedAt := now |}, st')
  end.

(** [recordResolutions]: one resolution per proposal that carries a rule
    id. *)
Definition record_one (humanCorrection : Invoice) (now : string)
    (st : MemoryStore) (entry : string * FieldConfidence) : MemoryStore :=
  let '(field, proposal) := entry in
  match fc_ruleId proposal with
  | Some ruleId =>
      if negb (String.eqb ruleId "") then
        let humanValue := invoice_get humanCorrection field in
        let systemValue := fc_value proposal in
        let fieldOutcome :=
          if strict_eq humanValue systemValue || is_undefined humanValue
          then ACCEPTED else REJECTED in
        recordResolution ruleId (inv_id humanCorrection) fieldOutcome now now st
      else st
  | None => st
  end.

Definition recordResolutions (proposals : Proposals) (humanCorrection : Invoice)
    (now : string) (st : MemoryStore) : MemoryStore :=
  fold_left (record_one humanCorrection now) proposals st.

(* ===================================================================== *)
(** * Diff utility (utils/diff.ts)                                        *)
(* ===================================================================== *)

(** [computeDiff] on two invoices. *)
Definition computeDiff `{Host} (original modified : Invoice) : list PatchOperation :=
  createPatch (invoice_to_js original) (invoice_to_js modified).

(** [s.substring(1)]. *)
Definition drop_first (s : string) : string :=
  match s with
  | EmptyString => EmptyString
  | String _ s' => s'
  end.

(** [extractChanges]: the changed paths, without their leading slash,
    with the value of the last add or replace on each. *)
Definition extractChanges (patch : list PatchOperation) : list (string * JsValue) :=
  fold_left
    (fun changes o =>
       match op o with
       | OpReplace | OpAdd => assoc_set (drop_first (path o)) (value o) changes
       | _ => changes
       end)
    patch [].

(** [s.split(c)] for a one-character separator. *)
Fixpoint split_on_go (c : ascii) (cur : string) (s : string) : list string :=
  match s with
  | EmptyString => [String.rev cur]
  | String a s' =>
      if Ascii.eqb a c then String.rev cur :: split_on_go c EmptyString s'
      else split_on_go c (String a cur) s'
  end.

Definition split_on (c : ascii) (s : string) : list string :=
  split_on_go c EmptyString s.

(** [path.split('/')[1]]. *)
Definition first_level (p : string) : JsValue :=
  match split_on "/"%char p with
  | _ :: f :: _ => JStr f
  | _ => JUndefined
  end.

(** [groupByField]: the operations grouped by first-level field, a group
    per key in first-occurrence order; the key of a path without a slash
    is [undefined], which a [Map] keeps apart from every string. *)
Definition groupByField (patch : list PatchOperation)
  : list (JsValue * list PatchOperation) :=
  fold_left
    (fun grouped o =>
       let field := first_level (path o) in
       let fix add (l : list (JsValue * list PatchOperation)) :=
         match l with
         | [] => [(field, [o])]
         | (k, ops) :: l' =>
             if strict_eq k field then (k, (ops ++ [o])%list) :: l'
             else (k, ops) :: add l'
         end in
       add grouped)
    patch [].

(* ===================================================================== *)
(** * Induction engine (core/logic/induction.ts)                          *)
(* ===================================================================== *)

(** ** String helpers of the strategies *)

Definition is_digit (a : ascii) : bool :=
  match digit_val a with Some _ => true | None => false end.

(** [s.indexOf(sub)]. *)
Fixpoint indexOf (s sub : string) : Z :=
  if String.prefix sub s then 0%Z
  else
    match s with
    | EmptyString => (-1)%Z
    | String _ s' =>
        let r := indexOf s' sub in
        if (r <? 0)%Z then (-1)%Z else (r + 1)%Z
    end.

(** [s.substring(start, end)]: both ends are clamped to the string and
    swapped when out of order. *)
Definition js_substring (s : string) (start stop : Z) : string :=
  let len := Z.of_nat (String.length s) in
  let a := Z.min (Z.max start 0) len in
  let b := Z.min (Z.max stop 0) len in
  let lo := Z.min a b in
  let hi := Z.max a b in
  String.substring (Z.to_nat lo) (Z.to_nat (hi - lo)) s.

(** [s.replace(pat, rep)] for a string pattern: the first occurrence. *)
Fixpoint replace_first (s pat rep : string) : string :=
  if String.prefix pat s
  then rep ++ String.substring (String.length pat) (String.length s) s
  else
    match s with
    | EmptyString => EmptyString
    | String a s' => String a (replace_first s' pat rep)
    end.

(** A global replace of single characters: every character is replaced
    by the string [f] gives for it. *)
Fixpoint replace_chars (f : ascii -> string) (s : string) : string :=
  match s with
  | EmptyString => EmptyString
  | String a s' => f a ++ replace_chars f s'
  end.

Definition is_regex_special (a : ascii) : bool :=
  existsb (Ascii.eqb a)
    ["."%char; "*"%char; "+"%char; "?"%char; "^"%char; "$"%char; "{"%char;
     "}"%char; "("%char; ")"%char; "|"%char; "["%char; "]"%char; "\"%char].

(** [s.replace(/[.*+?^${}()|[\]\\]/g, '\\$&')]. *)
Definition escapeRegExp : string -> string :=
  replace_chars (fun a =>
    if is_regex_special a then String "\"%char (String a EmptyString)
    else String a EmptyString).

(** [s.replace(/[\d]/g, '\\d')]. *)
Definition digits_to_class : string -> string :=
  replace_chars (fun a => if is_digit a then "\d" else String a EmptyString).

(** [s.replace(/[A-Z0-9]/g, m => m.match(/[A-Z]/) ? '[A-Z]' : '\\d')]. *)
Definition generalize_po : string -> string :=
  replace_chars (fun a =>
    if is_upper a then "[A-Z]"
    else if is_digit a then "\d"
    else String a EmptyString).

(** [s.replace(/([A-Z])/g, ' $1')]. *)
Definition space_capitals : string -> string :=
  replace_chars (fun a =>
    if is_upper a then String " "%char (String a EmptyString)
    else String a EmptyString).

(** The first match of [(\d{4})-(\d{2})-(\d{2})] in a string. *)
Definition iso_at (s : string) : option (string * string * string) :=
  match s with
  | String y1 (String y2 (String y3 (String y4 (String d1
      (String m1 (String m2 (String d2 (String a1 (String a2 _))))))))) =>
      if is_digit y1 && is_digit y2 && is_digit y3 && is_digit y4
         && Ascii.eqb d1 "-"%char && is_digit m1 && is_digit m2
         && Ascii.eqb d2 "-"%char && is_digit a1 && is_digit a2
      then Some (String y1 (String y2 (String y3 (String y4 EmptyString))),
                 String m1 (String m2 EmptyString),
                 String a1 (String a2 EmptyString))
      else None
  | _ => None
  end.

Fixpoint find_iso (s : string) : option (string * string * string) :=
  match iso_at s with
  | Some r => Some r
  | None =>
      match s with
      | EmptyString => None
      | String _ s' => find_iso s'
      end
  end.

(** The digits a string starts with. *)
Fixpoint leading_digits (s : string) : string :=
  match s with
  | String a s' => if is_digit a then String a (leading_digits s') else EmptyString
  | EmptyString => EmptyString
  end.

(** The first match of [lineItems\/(\d+)]: the digits of group 1. *)
Fixpoint find_line_item_index (s : string) : option string :=
  let here :=
    if String.prefix "lineItems/" s then
      let ds := leading_digits (String.substring 10 (String.length s) s) in
      if String.eqb ds "" then None else Some ds
    else None in
  match here with
  | Some ds => Some ds
  | None =>
      match s with
      | EmptyString => None
      | String _ s' => find_line_item_index s'
      end
  end.

(** [v[k]] for an own property of an object or an array. *)
Definition own_prop (v : JsValue) (k : string) : JsValue :=
  match v with
  | JObj props => default JUndefined (assoc_get k props)
  | JArr items =>
      match array_index k with
      | Some n => nth (N.to_nat n) items JUndefined
      | None =>
          if String.eqb k "length"
          then JNum (inject_Z (Z.of_nat (length items)))
          else JUndefined
      end
  | _ => JUndefined
  end.

Definition is_object (v : JsValue) : bool :=
  match v with JObj _ | JArr _ => true | _ => false end.

(** ** Helper functions *)

(** [getFieldValue]: the walk along the non-empty parts of the path. *)
Fixpoint walk (value : JsValue) (parts : list string) : JsValue :=
  match parts with
  | [] => value
  | part :: parts' =>
      if truthy value && is_object value then walk (own_prop value part) parts'
      else JUndefined
  end.

Definition getFieldValue (obj : JsValue) (p : string) : JsValue :=
  walk obj (List.filter (fun part => negb (String.eqb part "")) (split_on "/"%char p)).

Definition isDateField (field : string) : bool :=
  includes (toLowerCase field) "date".

Definition isNumericField (field : string) : bool :=
  let f := toLowerCase field in
  includes f "amount" || includes f "price" || includes f "quantity"
  || includes f "tax" || includes f "total" || includes f "net".

Definition generateDateVariants (isoDate : string) : list string :=
  match find_iso isoDate with
  | Some (year, month, day) =>
      [isoDate; day ++ "." ++ month ++ "." ++ year;
       day ++ "." ++ month ++ "." ++ String.substring 2 (String.length year) year]
  | None => [isoDate]
  end.

Definition generateFieldLabels (field : string) : list string :=
  let spaced := trim (space_capitals field) in
  let fieldLower := toLowerCase field in
  ([field; spaced]
     ++ (if includes fieldLower "net" then ["Netto"; "Net"] else [])
     ++ (if includes fieldLower "total" then ["Gesamt"; "Total"; "Summe"] else [])
     ++ (if includes fieldLower "tax" then ["MwSt"; "Tax"; "VAT"] else [])
     ++ (if includes fieldLower "date" then ["Datum"; "Date"] else []))%list.

(** [getDescriptionForSku]: the description of the line item the path
    names, or [null]. *)
Definition getDescriptionForSku (field : string) (inv : Invoice) : JsValue :=
  match find_line_item_index field with
  | None => JNull
  | Some ds =>
      let index := default 0%N (parse_digits 0%N ds) in
      let lineItem :=
        match inv_lineItems inv with
        | JArr items => nth (N.to_nat index) items JUndefined
        | JObj props =>
            default JUndefined (assoc_get (nat_to_string (N.to_nat index)) props)
        | _ => JUndefined
        end in
      js_or (own_prop lineItem "description") JNull
  end.

(** [generateRuleId]; [nowMs] is [Date.now()]. *)
Definition generateRuleId `{Host} (nowMs : Z) (base : string) : string :=
  let hash :=
    String.substring 0 8
      (md5_hex (base ++ "-" ++ number_toString (inject_Z nowMs))) in
  base ++ "-" ++ hash.

(** ** Strategy 1: regex induction

    A strategy returns [Some (Some rule)] for a rule, [Some None] for
    [null] and [None] when the JavaScript throws (a method of [String]
    called on a value that is not a string, or a pattern the
    regular-expression constructor rejects). *)

Definition regex_pattern `{Host} (logic : JsValue) (confidence : Q)
    (evidence : JsValue) (now : string) : VendorPattern :=
  {| vp_ruleType := REGEX; vp_logic := logic; vp_confidence := fl confidence;
     vp_sampleEvidence := evidence; vp_createdAt := now; vp_lastUsed := None |}.

Definition date_labels : list string :=
  ["Leistungsdatum"; "Service Date"; "Datum"; "Date"; "Rechnungsdatum";
   "Invoice Date"].

(** The first element of [xs] for which [test] holds; [None] as soon as a
    test throws. *)
Fixpoint find_first {A} (test : A -> option bool) (xs : list A)
  : option (option A) :=
  match xs with
  | [] => Some None
  | x :: xs' =>
      match test x with
      | None => None
      | Some true => Some (Some x)
      | Some false => find_first test xs'
      end
  end.

(** The labelled search of [induceRegexForDate]: the first variant, and
    for it the first label, whose pattern matches the raw text. *)
Fixpoint labelled_date `{Host} (rawText : string) (variants : list string)
  : option (option (string * string)) :=
  match variants with
  | [] => Some None
  | variant :: variants' =>
      match find_first
              (fun label =>
                 regex_test (label ++ "[:\s]*" ++ escapeRegExp variant) rawText)
              date_labels with
      | None => None
      | Some (Some label) => Some (Some (variant, label))
      | Some None => labelled_date rawText variants'
      end
  end.

Definition induceRegexForDate `{Host} (now : string) (_field : string)
    (dateValue : JsValue) (rawText : string) : option (option VendorPattern) :=
  if String.eqb rawText "" || negb (truthy dateValue) then Some None
  else
    match dateValue with
    | JStr isoDate =>
        let dateVariants := generateDateVariants isoDate in
        match labelled_date rawText dateVariants with
        | None => None
        | Some (Some (variant, label)) =>
            let extractPattern :=
              label ++ "[:\s]*(\d{2}\.\d{2}\.\d{2,4}|\d{4}-\d{2}-\d{2})" in
            let at_ := indexOf rawText variant in
            Some (Some (regex_pattern
                          (createRegexRule extractPattern "rawText" 1)
                          (95 # 100)
                          (JStr (js_substring rawText (Z.max 0 (at_ - 20))
                                   (at_ + Z.of_nat (String.length variant) + 20)))
                          now))
        | Some None =>
            match List.find (fun variant => includes rawText variant) dateVariants with
            | Some variant =>
                Some (Some (regex_pattern
                              (createRegexRule ("(" ++ digits_to_class variant ++ ")")
                                 "rawText" 1)
                              (70 # 100) (JStr variant) now))
            | None => Some None
            end
        end
    | _ => None
    end.

(** The search of [induceRegexForNumber]: for every variant the raw text
    contains, the first label whose pattern matches. *)
Fixpoint labelled_number `{Host} (field rawText : string) (variants : list string)
  : option (option (string * string)) :=
  match variants with
  | [] => Some None
  | variant :: variants' =>
      if includes rawText variant then
        match find_first
                (fun label => regex_test (label ++ "[:\s]*(\d+[.,]?\d*)") rawText)
                (generateFieldLabels field) with
        | None => None
        | Some (Some label) => Some (Some (variant, label))
        | Some None => labelled_number field rawText variants'
        end
      else labelled_number field rawText variants'
  end.

Definition induceRegexForNumber `{Host} (now : string) (field : string)
    (numValue : Q) (rawText : string) : option (option VendorPattern) :=
  if String.eqb rawText "" then Some None
  else
    let numStr := number_toString numValue in
    let numVariants := [numStr; replace_first numStr "." ","] in
    match labelled_number field rawText numVariants with
    | None => None
    | Some (Some (variant, label)) =>
        Some (Some (regex_pattern
                      (createRegexRule (label ++ "[:\s]*(\d+[.,]?\d*)") "rawText" 1)
                      (85 # 100) (JStr variant) now))
    | Some None => Some None
    end.

(** The label test of [induceRegexForText]: the pattern matches and its
    first group contains the value. *)
Definition text_label_test `{Host} (value : JsValue) (rawText label : string)
  : option bool :=
  match regex_match (label ++ "[:\s]*([^\n\r]+)") rawText with
  | None => None
  | Some None => Some false
  | Some (Some groups) =>
      match nth 1 groups JUndefined with
      | JStr g => Some (includes g (ToString value))
      | _ => None
      end
  end.

Definition induceRegexForText `{Host} (now : string) (field : string)
    (value : JsValue) (rawText : string) : option (option VendorPattern) :=
  if String.eqb rawText "" || negb (truthy value) then Some None
  else if includes rawText (ToString value) then
    match find_first (text_label_test value rawText) (generateFieldLabels field) with
    | None => None
    | Some (Some label) =>
        Some (Some (regex_pattern
                      (createRegexRule (label ++ "[:\s]*([^\n\r]+)") "rawText" 1)
                      (80 # 100) value now))
    | Some None => Some None
    end
  else Some None.

Definition induceRegexForPaymentTerms `{Host} (now : string) (value : JsValue)
    (rawText : string) : option (option VendorPattern) :=
  if String.eqb rawText "" || negb (truthy value) then Some None
  else
    match value with
    | JStr v =>
        let pattern := "(\d+%\s*Skonto)" in
        let skonto :=
          if includes (toLowerCase v) "skonto" then regex_test pattern rawText
          else Some false in
        match skonto with
        | None => None
        | Some true =>
            Some (Some (regex_pattern (createRegexRule pattern "rawText" 1)
                          (90 # 100) value now))
        | Some false => induceRegexForText now "paymentTerms" value rawText
        end
    | _ => None
    end.

Definition induceRegexForPO `{Host} (now : string) (value : JsValue)
    (rawText : string)
  : option (option VendorPattern) :=
  if String.eqb rawText "" || negb (truthy value) then Some None
  else
    match value with
    | JStr v =>
        let escaped := escapeRegExp v in
        if includes rawText v then
          Some (Some (regex_pattern
                        (createRegexRule ("(" ++ generalize_po escaped ++ ")")
                           "rawText" 1)
                        (85 # 100) value now))
        else Some None
    | _ => None
    end.

(** ** Strategy 2: arithmetic induction *)

(** [Math.abs(calculated - correctedValue) < 0.01]. *)
Definition fits `{Host} (calculated : JsNumber) (correctedValue : Q) : bool :=
  num_lt (num_abs (num_sub calculated (NFin correctedValue))) (fl (1 # 100)).

Definition vat_marker : string := "mwst\.?\s*inkl|gross|brutto|tax\s*incl".

Definition cmp (o : string) (field : string) (n : Q) : JsValue :=
  JObj [(o, JArr [var_ field; JNum n])].

Definition formula_rule `{Host} (now : string) (nowMs : Z) (name : string)
    (trigger : list JsValue) (sourceField description : string) (confidence : Q)
  : CorrectionMemory :=
  {| cm_id := generateRuleId nowMs name;
     cm_triggerCondition := JObj [("and", JArr trigger)];
     cm_action := createArithmeticRule name sourceField;
     cm_description := description;
     cm_confidence := fl confidence;
     cm_decayFactor := fl (95 # 100);
     cm_createdAt := now;
     cm_lastUsed := None |}.

(** Hypothesis 1: inclusive VAT. *)
Definition hypothesis_inclusive `{Host} (now : string) (nowMs : Z) (field : string)
    (correctedValue : Q) (inv : Invoice) : option (option CorrectionMemory) :=
  if String.eqb field "taxAmount" && truthy (inv_totalAmount inv)
     && negb (truthy (inv_taxAmount inv)) then
    let totalAmount := ToNumber (inv_totalAmount inv) in
    let calculated := num_sub totalAmount (num_div_by totalAmount (fl (119 # 100))) in
    if fits calculated correctedValue then
      if String.eqb (inv_rawText inv) "" then Some None
      else
        match regex_test vat_marker (inv_rawText inv) with
        | None => None
        | Some true =>
            Some (Some (formula_rule now nowMs "inclusive_vat_19"
                          [cmp "==" "taxAmount" 0; cmp ">" "totalAmount" 0;
                           JObj [("regexTest",
                                  JArr [JStr vat_marker; var_ "rawText"])]]
                          "totalAmount"
                          ("Calculate 19% VAT from gross amount when "
                             ++ dquote ++ "MwSt. inkl." ++ dquote ++ " detected")
                          (95 # 100)))
        | Some false => Some None
        end
    else Some None
  else Some None.

(** Hypothesis 2: exclusive VAT. *)
Definition hypothesis_exclusive `{Host} (now : string) (nowMs : Z) (field : string)
    (correctedValue : Q) (inv : Invoice) : option (option CorrectionMemory) :=
  if String.eqb field "taxAmount" && truthy (inv_netAmount inv)
     && negb (truthy (inv_taxAmount inv)) then
    let calculated := num_mul_by (ToNumber (inv_netAmount inv)) (fl (19 # 100)) in
    if fits calculated correctedValue then
      Some (Some (formula_rule now nowMs "exclusive_vat_19"
                    [cmp "==" "taxAmount" 0; cmp ">" "netAmount" 0]
                    "netAmount" "Calculate 19% VAT from net amount" (90 # 100)))
    else Some None
  else Some None.

(** Hypothesis 3: net from gross. *)
Definition hypothesis_net `{Host} (now : string) (nowMs : Z) (field : string)
    (correctedValue : Q) (inv : Invoice) : option (option CorrectionMemory) :=
  if String.eqb field "netAmount" && truthy (inv_totalAmount inv)
     && negb (truthy (inv_netAmount inv)) then
    let calculated := num_div_by (ToNumber (inv_totalAmount inv)) (fl (119 # 100)) in
    if fits calculated correctedValue then
      Some (Some (formula_rule now nowMs "net_from_gross_19"
                    [cmp "==" "netAmount" 0; cmp ">" "totalAmount" 0]
                    "totalAmount" "Calculate net amount from gross (19% VAT)"
                    (90 # 100)))
    else Some None
  else Some None.

(** [induceArithmeticFormula]: the first hypothesis that fits. *)
Definition induceArithmeticFormula `{Host} (now : string) (nowMs : Z)
    (field : string) (correctedValue : Q) (inv : Invoice)
  : option (option CorrectionMemory) :=
  match hypothesis_inclusive now nowMs field correctedValue inv with
  | None => None
  | Some (Some rule) => Some (Some rule)
  | Some None =>
      match hypothesis_exclusive now nowMs field correctedValue inv with
      | None => None
      | Some (Some rule) => Some (Some rule)
      | Some None => hypothesis_net now nowMs field correctedValue inv
      end
  end.

(** ** Strategy 3: mapping induction *)

(** The lookup table of [induceMapping]: the lower-cased description,
    then its tokens of more than three characters. *)
Definition mapping_table (description : string) (sku : JsValue)
  : list (string * JsValue) :=
  let tokens := split_ws (toLowerCase description) in
  fold_left
    (fun mapping token =>
       if (3 <? String.length token)%nat then assoc_set token sku mapping
       else mapping)
    tokens (assoc_set (toLowerCase description) sku []).

Definition induceMapping `{Host} (now : string) (field : string)
    (description sku : JsValue) (_invoice : Invoice)
  : option (option VendorPattern) :=
  if negb (truthy description) || negb (truthy sku) then Some None
  else
    match description with
    | JStr d =>
        Some (Some {| vp_ruleType := MAP;
                      vp_logic :=
                        createMapRule (mapping_table d sku)
                          (replace_first field ".sku" ".description");
                      vp_confidence := fl (85 # 100);
                      vp_sampleEvidence := description;
                      vp_createdAt := now;
                      vp_lastUsed := None |})
    | _ => None
    end.

(** ** Main induction function *)

Definition add_vendor_rule (field : string) (rule : option VendorPattern)
    (result : InductionResult) : InductionResult :=
  match rule with
  | Some pattern =>
      {| vendorRules := (vendorRules result ++ [(field, pattern)])%list;
         correctionRules := correctionRules result |}
  | None => result
  end.

(** The body of the loop over the changes; [None] when a strategy
    throws. *)
Definition induce_change `{Host} (now : string) (nowMs : Z) (systemOutput : Invoice)
    (result : InductionResult) (change : string * JsValue)
  : option InductionResult :=
  let '(field, newValue) := change in
  let rawText := inv_rawText systemOutput in
  let oldValue := getFieldValue (invoice_to_js systemOutput) field in
  if strict_eq oldValue newValue then Some result
  else if isDateField field then
    rule ← induceRegexForDate now field newValue rawText;
    Some (add_vendor_rule field rule result)
  else
    match isNumericField field, newValue with
    | true, JNum n =>
        formulaRule ← induceArithmeticFormula now nowMs field n systemOutput;
        match formulaRule with
        | Some rule =>
            Some {| vendorRules := vendorRules result;
                    correctionRules := (correctionRules result ++ [rule])%list |}
        | None =>
            rule ← induceRegexForNumber now field n rawText;
            Some (add_vendor_rule field rule result)
        end
    | _, _ =>
        if includes field "sku" || includes field "Sku" then
          let description := getDescriptionForSku field systemOutput in
          if truthy description then
            rule ← induceMapping now field description newValue systemOutput;
            Some (add_vendor_rule field rule result)
          else Some result
        else if includes field "paymentTerms" then
          rule ← induceRegexForPaymentTerms now newValue rawText;
          Some (add_vendor_rule field rule result)
        else if includes field "poNumber" then
          rule ← induceRegexForPO now newValue rawText;
          Some (add_vendor_rule field rule result)
        else
          rule ← induceRegexForText now field newValue rawText;
          Some (add_vendor_rule field rule result)
    end.

Definition empty_result : InductionResult :=
  {| vendorRules := []; correctionRules := [] |}.

Fixpoint induce_changes `{Host} (now : string) (nowMs : Z) (systemOutput : Invoice)
    (changes : list (string * JsValue)) (result : InductionResult)
  : option InductionResult :=
  match changes with
  | [] => Some result
  | change :: changes' =>
      match induce_change now nowMs systemOutput result change with
      | None => None
      | Some result' => induce_changes now nowMs systemOutput changes' result'
      end
  end.

(** [induceRules]; [None] when a strategy throws. *)
Definition induceRules `{Host} (now : string) (nowMs : Z)
    (systemOutput humanCorrection : Invoice) : option InductionResult :=
  let patch := computeDiff systemOutput humanCorrection in
  if (length patch =? 0)%nat then Some empty_result
  else induce_changes now nowMs systemOutput (extractChanges patch) empty_result.

(** ** A run of resolutions *)

(** One call of [recordResolution]. *)
Record Resolution := {
  res_ruleId : string;
  res_invoiceId : string;
  res_outcome : Outcome;
  res_tUsed : string;
  res_tEntry : string;
}.

Definition record_one_resolution (st : MemoryStore) (r : Resolution) : MemoryStore :=
  recordResolution (res_ruleId r) (res_invoiceId r) (res_outcome r)
    (res_tUsed r) (res_tEntry r) st.

(** The store after a sequence of calls. *)
Definition record_all (rs : list Resolution) (st : MemoryStore) : MemoryStore :=
  fold_left record_one_resolution rs st.

(** The history entries a sequence of calls writes for one rule, oldest
    first. *)
Definition items_for (ruleId : string) (rs : list Resolution)
  : list ResolutionHistoryItem :=
  map (fun r => {| rh_invoiceId := res_invoiceId r; rh_outcome := res_outcome r;
                   rh_timestamp := res_tEntry r |})
    (List.filter (fun r => String.eqb (res_ruleId r) ruleId) rs).

Definition is_accepted (i : ResolutionHistoryItem) : bool :=
  match rh_outcome i with ACCEPTED => true | _ => false end.

Definition is_rejected (i : ResolutionHistoryItem) : bool :=
  match rh_outcome i with REJECTED => true | _ => false end.

(** ** Calls that write the store *)

(** A call of a method that can write the store. *)
Inductive StoreCall :=
| CallSaveVendorMemory (memory : VendorMemory)
| CallUpdateVendorPattern (vendorId field : string) (pattern : VendorPattern)
    (now : string)
| CallSaveCorrectionMemory (memory : CorrectionMemory)
| CallUpdateCorrectionLastUsed (id now : string)
| CallSaveResolutionMemory (memory : ResolutionMemory)
| CallRecordResolution (r : Resolution)
| CallRecordResolutions (proposals : Proposals) (humanCorrection : Invoice)
    (now : string)
| CallRecordProcessedInvoice (fingerprint invoiceId vendor invoiceNumber : string)
    (totalAmount : JsValue) (now : string)
| CallDecide (now : string) (context : ProcessingContext) (proposals : Proposals).

(** The store after a call; a [decide] that throws leaves it as it was. *)
Definition run_call `{Host} (st : MemoryStore) (c : StoreCall) : MemoryStore :=
  match c with
  | CallSaveVendorMemory memory => saveVendorMemory memory st
  | CallUpdateVendorPattern vendorId field pattern now =>
      updateVendorPattern vendorId field pattern now st
  | CallSaveCorrectionMemory memory => saveCorrectionMemory memory st
  | CallUpdateCorrectionLastUsed id now => updateCorrectionLastUsed id now st
  | CallSaveResolutionMemory memory => saveResolutionMemory memory st
  | CallRecordResolution r => record_one_resolution st r
  | CallRecordResolutions proposals humanCorrection now =>
      recordResolutions proposals humanCorrection now st
  | CallRecordProcessedInvoice fingerprint invoiceId vendor invoiceNumber
      totalAmount now =>
      recordProcessedInvoice fingerprint invoiceId vendor invoiceNumber
        totalAmount now st
  | CallDecide now context proposals =>
      match decide now context proposals st with
      | Some (_, st') => st'
      | None => st
      end
  end.

Definition run_calls `{Host} (cs : list StoreCall) (st : MemoryStore) : MemoryStore :=
  fold_left run_call cs st.

(** The fingerprint [decide] computes for an invoice. *)
Definition fingerprint_of `{Host} (inv : Invoice) : string :=
  generateInvoiceFingerprint (inv_vendor inv) (inv_invoiceNumber inv)
    (inv_date inv) (inv_totalAmount inv).

(** Rule 3 of the escalation policy on one field, as a proposition: the
    output value is falsy, or the field has a proposal whose confidence is
    below 0.90. *)
Definition critical_low `{Host} (output : list (string * JsValue))
    (proposals : Proposals) (field : string) : Prop :=
  truthy (output_get output field) = false
  \/ exists proposal,
       assoc_get field proposals = Some proposal
       /\ (fc_confidence proposal < fl (9 # 10))%Q.

Definition duplicate_reasoning : string :=
  "Duplicate invoice detected: matches fingerprint of previously processed invoice".

Definition new_vendor_reasoning : string :=
  "New vendor: no existing memory found, requires initial human review".

Definition critical_reasoning (field : string) : string :=
  "Critical field " ++ dquote ++ field ++ dquote
    ++ " is missing or has low confidence".

Definition mismatch_reasoning `{Host} (total sum : JsValue) : string :=
  "Total amount mismatch: invoice total (" ++ ToString total
    ++ ") differs from line item sum (" ++ ToString sum ++ ")".

Definition approve_reasoning `{Host} (overall : Q) : string :=
  "High confidence automation: overall score " ++ number_toFixed2 overall.

Definition overall_reasoning `{Host} (overall : Q) : string :=
  "Overall confidence (" ++ number_toFixed2 overall ++ ") below threshold (0.80)".

(* ===================================================================== *)
(** * Vocabulary of the properties                                        *)
(* ===================================================================== *)

(** Whether some proposal is for [field]. *)
Definition covered (proposals : Proposals) (field : string) : bool :=
  existsb (fun entry => String.eqb field (fst entry)) proposals.

(** The raw fields the second loop of [decide] copies into an output:
    those the output lacks and the invoice defines. *)
Definition copied (inv : Invoice) (output : list (string * JsValue))
    (field : string) : bool :=
  negb (assoc_has field output) && negb (is_undefined (invoice_get inv field)).

(** The confidence collected for a copied raw field. *)
Definition raw_confidence `{Host} (inv : Invoice) (field : string) : Q :=
  if is_null (invoice_get inv field) then 0%Q else fl (7 # 10).

(** The sum of a list of numbers. *)
Definition Qsum (l : list Q) : Q := fold_right Qplus 0%Q l.

(** The confidence list as the specification words it: one value per
    proposal, and for every field of the fixed set without a proposal
    0.70 when the raw value is present and not [null], 0.0 otherwise. *)
Definition spec_confidences `{Host} (inv : Invoice) (proposals : Proposals)
  : list Q :=
  (map (fun e => fc_confidence (snd e)) proposals
     ++ map (fun field =>
               if negb (is_undefined (invoice_get inv field))
                  && negb (is_null (invoice_get inv field))
               then fl (7 # 10) else 0%Q)
          (List.filter (fun field => negb (covered proposals field))
             ["date"; "serviceDate"; "dueDate"; "totalAmount"; "taxAmount";
              "netAmount"; "currency"; "lineItems"; "paymentTerms";
              "poNumber"]))%list.

(** Whether a call that may throw returned. *)
Definition returned {A} (result : option A) : bool :=
  match result with Some _ => true | None => false end.



(** [item] is an object whose amount, absent or a number, counts as [a]
    in the line-item sum: an absent amount and the amount 0 count as 0. *)
Definition item_counts_as (item : JsValue) (a : Q) : Prop :=
  exists props,
    item = JObj props
    /\ ((assoc_get "amount" props = None /\ a = 0%Q)
        \/ exists x,
             assoc_get "amount" props = Some (JNum x)
             /\ a = (if Qeq_bool x 0 then 0%Q else x)).

(** The sum of amounts as the reduction computes it, from the left and
    rounded at every step. *)
Definition rounded_sum `{Host} (amounts : list Q) : Q :=
  fold_left (fun sum a => fl (sum + a)%Q) amounts 0%Q.

(** [sub] occurs in [s]. *)
Definition occurs_in (sub s : string) : Prop :=
  exists before after, s = before ++ sub ++ after.


(* ===================================================================== *)
(** * Example inputs                                                      *)
(* ===================================================================== *)

(** ** A host for the examples

    The examples below run the definitions on concrete inputs; they use
    this host, whose functions are simple stand-ins.  Every theorem is
    proved for an arbitrary host. *)

Definition example_number_toString (q : Q) : string :=
  if Qeq_bool q 0 then "0"
  else if Qeq_bool q 100 then "100"
  else if Qeq_bool q (119 # 100) then "1.19"
  else if Qeq_bool q (19 # 100) then "0.19"
  else "1".

(** A serialiser for values whose strings need no escaping. *)
Fixpoint example_stringify (v : JsValue) : string :=
  match v with
  | JUndefined | JNull => "null"
  | JBool true => "true"
  | JBool false => "false"
  | JNum q => example_number_toString q
  | JStr s => dquote ++ s ++ dquote
  | JArr items =>
      "[" ++ String.concat "," (map example_stringify items) ++ "]"
  | JObj props =>
      "{"
        ++ String.concat ","
             ((fix members (l : list (string * JsValue)) : list string :=
                 match l with
                 | [] => []
                 | (k, x) :: l' =>
                     (dquote ++ k ++ dquote ++ ":" ++ example_stringify x)
                       :: members l'
                 end) props)
        ++ "}"
  end.

(** The numeric operators of the example interpreter. *)
Definition example_operator (name : string) (args : list JsValue) : option JsValue :=
  match args with
  | [JNum x; JNum y] =>
      if String.eqb name "==" then Some (JBool (Qeq_bool x y))
      else if String.eqb name ">" then Some (JBool (Qgt_bool x y))
      else if String.eqb name "*" then Some (JNum (x * y))
      else if String.eqb name "/" then Some (JNum (x / y))
      else if String.eqb name "-" then Some (JNum (x - y))
      else None
  | _ => None
  end.

(** A small rule interpreter: variables, literals and binary numeric
    operators; it throws on every other operation. *)
Fixpoint example_jsonLogic (rule data : JsValue) : option JsValue :=
  match rule with
  | JObj [(name, args)] =>
      if String.eqb name "var" then
        match args with
        | JStr field =>
            Some (match own_prop data field with
                  | JUndefined => JNull
                  | v => v
                  end)
        | _ => None
        end
      else
        match args with
        | JArr items =>
            match (fix eval_all (l : list JsValue) : option (list JsValue) :=
                     match l with
                     | [] => Some []
                     | x :: l' =>
                         match example_jsonLogic x data, eval_all l' with
                         | Some v, Some vs => Some (v :: vs)
                         | _, _ => None
                         end
                     end) items with
            | Some values => example_operator name values
            | None => None
            end
        | _ => None
        end
  | JObj _ | JArr _ => None
  | _ => Some rule
  end.

(** The numbers the strings of the examples convert to. *)
Definition example_string_toNumber (s : string) : JsNumber :=
  if String.eqb s "" then NFin 0
  else if String.eqb s "100.00" then NFin 100
  else if String.eqb s "10050" then NFin 10050
  else NNaN.

#[local] Instance example_host : Host := {|
  sha256_hex := fun data => "sha256:" ++ data;
  md5_hex := fun data => "md5:0000" ++ data;
  fl := fun q => q;
  number_toString := example_number_toString;
  number_toFixed2 := fun _ => "0.00";
  string_toNumber := example_string_toNumber;
  JSON_stringify := example_stringify;
  jsonLogic_apply := example_jsonLogic;
  regex_match := fun _ _ => Some None;
  createPatch := fun _ _ => [];
  createPatch_same := fun _ => eq_refl;
  Date_getTime := fun _ => 0%Z;
|}.

(** ** Invoices and contexts *)

(** An invoice with the given date, total and line items and no other
    optional field. *)
Definition example_invoice (date totalAmount lineItems : JsValue) : Invoice :=
  {| inv_id := "INV-A-001";
     inv_vendor := "Supplier GmbH";
     inv_invoiceNumber := "A-001";
     inv_date := date;
     inv_serviceDate := JUndefined;
     inv_dueDate := JUndefined;
     inv_currency := JUndefined;
     inv_netAmount := JUndefined;
     inv_taxAmount := JUndefined;
     inv_totalAmount := totalAmount;
     inv_lineItems := lineItems;
     inv_paymentTerms := JUndefined;
     inv_poNumber := JUndefined;
     inv_rawText := "RECHNUNG Supplier GmbH Rechnungsnummer: A-001" |}.

(** An invoice that carries a date and nothing else. *)
Definition invoice_date_only : Invoice :=
  example_invoice (JStr "2023-12-15") JUndefined JUndefined.

Definition example_vendor : VendorMemory :=
  {| vm_id := "v1";
     vm_vendorName := "Supplier GmbH";
     vm_fingerprints := ["Supplier GmbH"; "supplier gmbh"; "supplier"];
     vm_defaults := Some [];
     vm_patterns := [];
     vm_createdAt := "2024-01-01T00:00:00.000Z";
     vm_updatedAt := "2024-01-01T00:00:00.000Z" |}.

Definition example_context (inv : Invoice) (vm : option VendorMemory)
  : ProcessingContext :=
  {| invoice := inv; vendorMemory := vm; correctionMemories := [];
     resolutionMemories := []; auditTrail := [] |}.

Definition example_proposal (field : string) (value : JsValue) (confidence : Q)
  : string * FieldConfidence :=
  (field,
   {| fc_field := field; fc_value := value; fc_confidence := confidence;
      fc_source := VENDOR_PATTERN; fc_ruleId := Some ("v1-" ++ field);
      fc_reasoning :=
        "Applied vendor pattern for " ++ dquote ++ "Supplier GmbH" ++ dquote |}).

(** An invoice of 100 whose single line item carries no amount. *)
Definition invoice_unpriced_item : Invoice :=
  example_invoice (JStr "2023-12-15") (JNum 100)
    (JArr [JObj [("description", JStr "Consulting")]]).

Definition context_unpriced_item : ProcessingContext :=
  example_context invoice_unpriced_item (Some example_vendor).

(** Proposals of confidence 0.95 for the total and the date. *)
Definition proposals_total_date : Proposals :=
  [example_proposal "totalAmount" (JNum 100) (95 # 100);
   example_proposal "date" (JStr "2023-12-15") (95 # 100)].

(** An invoice whose total is zero. *)
Definition invoice_zero_total : Invoice :=
  example_invoice (JStr "2023-12-15") (JNum 0) JUndefined.

Definition context_zero_total : ProcessingContext :=
  example_context invoice_zero_total (Some example_vendor).

(** The invoice of [invoice_unpriced_item] submitted again under another
    id, with other line items and another source text. *)
Definition invoice_resubmitted : Invoice :=
  {| inv_id := "INV-A-004";
     inv_vendor := "Supplier GmbH";
     inv_invoiceNumber := "A-001";
     inv_date := JStr "2023-12-15";
     inv_serviceDate := JUndefined;
     inv_dueDate := JUndefined;
     inv_currency := JStr "EUR";
     inv_netAmount := JUndefined;
     inv_taxAmount := JUndefined;
     inv_totalAmount := JNum 100;
     inv_lineItems :=
       JArr [JObj [("description", JStr "Consulting"); ("amount", JNum 60)];
             JObj [("description", JStr "Travel"); ("amount", JNum 40)]];
     inv_paymentTerms := JUndefined;
     inv_poNumber := JUndefined;
     inv_rawText := "Rechnung (Kopie) Supplier GmbH A-001 Betrag: 100.00 EUR" |}.

(** Calls made between the two submissions. *)
Definition calls_between : list StoreCall :=
  [CallDecide "2024-01-02T00:00:00.000Z" context_zero_total [];
   CallRecordResolution
     {| res_ruleId := "v1-date"; res_invoiceId := "INV-A-001";
        res_outcome := ACCEPTED; res_tUsed := "2024-01-02T00:00:00.000Z";
        res_tEntry := "2024-01-02T00:00:00.000Z" |}].





(** An invoice of 100 with one line item of 100. *)
Definition invoice_one_item : Invoice :=
  example_invoice (JStr "2023-12-15") (JNum 100)
    (JArr [JObj [("description", JStr "Consulting"); ("amount", JNum 100)]]).

(** Proposals of confidence 0.95 for the date and for the total, the
    total as the string a regular-expression rule extracts. *)
Definition proposals_string_total : Proposals :=
  [example_proposal "totalAmount" (JStr "100.00") (95 # 100);
   example_proposal "date" (JStr "2023-12-15") (95 # 100)].



(** A proposal that a rule made for a field the correction omits. *)
Definition proposal_currency_rule : FieldConfidence :=
  {| fc_field := "currency"; fc_value := JStr "EUR"; fc_confidence := 9 # 10;
     fc_source := VENDOR_PATTERN; fc_ruleId := Some "vendor-1-currency";
     fc_reasoning := "Applied vendor pattern" |}.

(* ===================================================================== *)
(** * Properties                                                          *)
(* ===================================================================== *)

(** ** Resolution memory *)

Lemma slice_last_short {A} n (l : list A) :
  (length l <= n)%nat -> slice_last n l = l.
Proof.
  intros Hl. unfold slice_last.
  replace (length l - n)%nat with 0%nat by lia. reflexivity.
Qed.

Lemma slice_last_length {A} n (l : list A) :
  length (slice_last n l) = Nat.min n (length l).
Proof. unfold slice_last. rewrite length_drop. lia. Qed.

Lemma slice_last_snoc {A} n (l : list A) x :
  slice_last (S n) (slice_last (S n) l ++ [x]) = slice_last (S n) (l ++ [x]).
Proof.
  unfold slice_last. rewrite !length_app, length_drop. simpl.
  destruct (le_lt_dec (length l) (S n)) as [Hle|Hgt].
  - replace (length l - S n)%nat with 0%nat by lia. simpl.
    rewrite Nat.sub_0_r. reflexivity.
  - replace (length l - (length l - S n) + 1 - S n)%nat with 1%nat by lia.
    replace (length l + 1 - S n)%nat with (S (length l - S n)) by lia.
    rewrite drop_app_le by (rewrite length_drop; lia).
    rewrite drop_drop.
    rewrite drop_app_le by lia.
    f_equal. f_equal. lia.
Qed.

Lemma capped_history {A} (h : list A) :
  (if (100 <? length h)%nat then slice_last 100 h else h) = slice_last 100 h.
Proof.
  destruct (100 <? length h)%nat eqn:E; [reflexivity|].
  apply Nat.ltb_ge in E. symmetry. by apply slice_last_short.
Qed.

Lemma get_save_same m st :
  getResolutionMemory (saveResolutionMemory m st) (rm_ruleId m)
  = {| rm_ruleId := rm_ruleId m;
       rm_totalApplications := rm_totalApplications m;
       rm_acceptedCount := rm_acceptedCount m;
       rm_rejectedCount := rm_rejectedCount m;
       rm_lastUsed := or_null (rm_lastUsed m);
       rm_history := rm_history m |}.
Proof.
  unfold getResolutionMemory, saveResolutionMemory, set_resolution_memories.
  cbn [resolution_memories]. by rewrite lookup_insert_eq.
Qed.

Lemma get_save_other m st r :
  r <> rm_ruleId m ->
  getResolutionMemory (saveResolutionMemory m st) r = getResolutionMemory st r.
Proof.
  intros Hne.
  unfold getResolutionMemory, saveResolutionMemory, set_resolution_memories.
  cbn [resolution_memories]. by rewrite lookup_insert_ne.
Qed.

Lemma get_ruleId st ruleId : rm_ruleId (getResolutionMemory st ruleId) = ruleId.
Proof. unfold getResolutionMemory. by destruct (resolution_memories st !! ruleId). Qed.

(** One call on the rule it names: the counters and the history after
    the call, from the ones before it. *)
Lemma get_after_record_same ruleId invoiceId outcome tUsed tEntry st :
  let m := getResolutionMemory st ruleId in
  let m' :=
    getResolutionMemory
      (recordResolution ruleId invoiceId outcome tUsed tEntry st) ruleId in
  rm_totalApplications m' = S (rm_totalApplications m)
  /\ rm_acceptedCount m'
     = (rm_acceptedCount m
        + if (match outcome with ACCEPTED => true | _ => false end) then 1 else 0)%nat
  /\ rm_rejectedCount m'
     = (rm_rejectedCount m
        + if (match outcome with REJECTED => true | _ => false end) then 1 else 0)%nat
  /\ rm_history m'
     = slice_last 100
         (rm_history m ++
            [{| rh_invoiceId := invoiceId; rh_outcome := outcome;
                rh_timestamp := tEntry |}]).
Proof.
  cbn zeta. unfold recordResolution. rewrite get_ruleId.
  match goal with |- context [saveResolutionMemory ?m st] =>
    pose proof (get_save_same m st) as Hs; cbn [rm_ruleId] in Hs;
    rewrite Hs end.
  cbn [rm_totalApplications rm_acceptedCount rm_rejectedCount rm_history].
  rewrite capped_history.
  repeat split; destruct outcome; lia.
Qed.

Lemma get_after_record_other ruleId invoiceId outcome tUsed tEntry st r :
  r <> ruleId ->
  getResolutionMemory (recordResolution ruleId invoiceId outcome tUsed tEntry st) r
  = getResolutionMemory st r.
Proof.
  intros Hne. unfold recordResolution.
  apply get_save_other. cbn [rm_ruleId]. by rewrite get_ruleId.
Qed.

Lemma items_for_snoc ruleId rs r :
  items_for ruleId (rs ++ [r])
  = (items_for ruleId rs ++
      if String.eqb (res_ruleId r) ruleId
      then [{| rh_invoiceId := res_invoiceId r; rh_outcome := res_outcome r;
               rh_timestamp := res_tEntry r |}]
      else [])%list.
Proof.
  unfold items_for. rewrite List.filter_app, map_app. cbn.
  by destruct (String.eqb (res_ruleId r) ruleId).
Qed.

Lemma record_all_snoc rs r st :
  record_all (rs ++ [r]) st = record_one_resolution (record_all rs st) r.
Proof. unfold record_all. by rewrite fold_left_app. Qed.

(** The record of a rule after a run from the fresh store, in terms of
    the calls that named the rule. *)
Lemma record_all_state rs ruleId :
  let m := getResolutionMemory (record_all rs empty_store) ruleId in
  rm_totalApplications m = length (items_for ruleId rs)
  /\ rm_acceptedCount m = length (List.filter is_accepted (items_for ruleId rs))
  /\ rm_rejectedCount m = length (List.filter is_rejected (items_for ruleId rs))
  /\ rm_history m = slice_last 100 (items_for ruleId rs).
Proof.
  cbn zeta. induction rs as [|r rs IH] using rev_ind.
  - by cbn.
  - rewrite record_all_snoc, items_for_snoc. unfold record_one_resolution.
    destruct IH as (Ht & Ha & Hr & Hh).
    destruct (String.eqb (res_ruleId r) ruleId) eqn:E.
    + apply String.eqb_eq in E. subst ruleId.
      pose proof (get_after_record_same (res_ruleId r) (res_invoiceId r)
                    (res_outcome r) (res_tUsed r) (res_tEntry r)
                    (record_all rs empty_store)) as (Ht' & Ha' & Hr' & Hh').
      rewrite Ht', Ha', Hr', Hh', Ht, Ha, Hr, Hh.
      rewrite !List.filter_app, !length_app. cbn.
      unfold is_accepted, is_rejected; cbn.
      rewrite slice_last_snoc.
      repeat split; destruct (res_outcome r); cbn; lia.
    + apply String.eqb_neq in E.
      rewrite get_after_record_other by congruence.
      rewrite app_nil_r. done.
Qed.

Lemma accepted_rejected_le (l : list ResolutionHistoryItem) :
  (length (List.filter is_accepted l) + length (List.filter is_rejected l)
   <= length l)%nat.
Proof.
  induction l as [|i l IH]; cbn; [lia|].
  unfold is_accepted, is_rejected in *.
  destruct (rh_outcome i); cbn; lia.
Qed.

(** C7.  After any sequence of [recordResolution] calls on a fresh store,
    the record of every rule has at most 100 history entries.  They are
    the entries recorded for the rule with the oldest ones, all but the
    last 100, dropped: the entries recorded for the rule are some evicted
    entries followed by the history, in the order of recording, and
    nothing is evicted while there are at most 100.  The accepted and
    rejected counts sum to at most the total.  [getResolutionMemory] on a
    rule without a row returns the all-zero record with an empty
    history. *)
Theorem resolution_memory_bounded_fifo (rs : list Resolution) (ruleId : string) :
  let m := getResolutionMemory (record_all rs empty_store) ruleId in
  let recorded :=
    map (fun r => {| rh_invoiceId := res_invoiceId r; rh_outcome := res_outcome r;
                     rh_timestamp := res_tEntry r |})
      (List.filter (fun r => String.eqb (res_ruleId r) ruleId) rs) in
  (length (rm_history m) <= 100)%nat
  /\ rm_history m = drop (length recorded - 100) recorded
  /\ (exists evicted,
        recorded = (evicted ++ rm_history m)%list
        /\ length evicted = (length recorded - 100)%nat)
  /\ (rm_acceptedCount m + rm_rejectedCount m <= rm_totalApplications m)%nat
  /\ (forall st : MemoryStore,
        getResolutionMemory
          (set_resolution_memories (delete ruleId (resolution_memories st)) st)
          ruleId
        = {| rm_ruleId := ruleId; rm_totalApplications := 0;
             rm_acceptedCount := 0; rm_rejectedCount := 0;
             rm_lastUsed := None; rm_history := [] |}).
Proof.
  cbn zeta. fold (items_for ruleId rs).
  destruct (record_all_state rs ruleId) as (Ht & Ha & Hr & Hh).
  rewrite Ht, Ha, Hr, Hh. unfold slice_last.
  split; [rewrite length_drop; lia|].
  split; [reflexivity|].
  split.
  { exists (take (length (items_for ruleId rs) - 100) (items_for ruleId rs)).
    split; [by rewrite take_drop|]. rewrite length_take. lia. }
  split; [apply accepted_rejected_le|].
  intros st. unfold getResolutionMemory, set_resolution_memories.
  cbn [resolution_memories]. by rewrite lookup_delete_eq.
Qed.

(** ** Confidence of a rule *)

(** The decay factor [calculateConfidence] uses is never negative. *)
Lemma decay_nonneg `{Host} (used now : string) :
  (0 <= Qpower (99 # 100) (daysBetween used now))%Q.
Proof. apply Qpower_0_le. discriminate. Qed.

Lemma laplace_monotone (a k t : nat) :
  ((inject_Z (Z.of_nat a) + 1) / (inject_Z (Z.of_nat t) + 2)
   <= (inject_Z (Z.of_nat (a + k)) + 1) / (inject_Z (Z.of_nat t) + 2))%Q.
Proof.
  unfold Qdiv. apply Qmult_le_compat_r.
  - rewrite Qplus_le_l. rewrite <- Zle_Qle. lia.
  - apply Qinv_le_0_compat.
    replace 0%Q with (inject_Z 0 + 0)%Q by reflexivity.
    apply Qplus_le_compat; [rewrite <- Zle_Qle; lia | discriminate].
Qed.

(** C3.  Without a resolution record, or with one that counts no
    application, the confidence is exactly [base * 0.8].  With [S t]
    applications it is
    [max(0.1, (0.6 base + 0.4 (accepted + 1) / (S t + 2)) * decay)], where
    the decay is [0.99 ^ daysBetween(lastUsed, now)], and 1 when
    [lastUsed] is unset or empty.  With everything else fixed, the result
    does not decrease when the accepted count grows. *)
Theorem calculateConfidence_laplace_decay `{Host} (now : string) (base : Q)
    (ruleId : string) (rejected : nat) (used : option string)
    (history : list ResolutionHistoryItem) (lastUsed : option string) :
  let resolution total accepted :=
    Some {| rm_ruleId := ruleId; rm_totalApplications := total;
            rm_acceptedCount := accepted; rm_rejectedCount := rejected;
            rm_lastUsed := used; rm_history := history |} in
  let decay :=
    match lastUsed with
    | Some u => if String.eqb u "" then 1%Q else Qpower (99 # 100) (daysBetween u now)
    | None => 1%Q
    end in
  calculateConfidence now base None lastUsed = (base * (8 # 10))%Q
  /\ (forall accepted,
        calculateConfidence now base (resolution 0%nat accepted) lastUsed
        = (base * (8 # 10))%Q)
  /\ (forall t accepted,
        (calculateConfidence now base (resolution (S t) accepted) lastUsed
         == Qmax (1 # 10)
              (((6 # 10) * base
                + (4 # 10) * ((inject_Z (Z.of_nat accepted) + 1)
                              / (inject_Z (Z.of_nat (S t)) + 2)))
               * decay))%Q)
  /\ (forall total accepted k,
        (calculateConfidence now base (resolution total accepted) lastUsed
         <= calculateConfidence now base (resolution total (accepted + k)%nat)
              lastUsed)%Q).
Proof.
  cbn zeta. split; [reflexivity|]. split; [reflexivity|]. split.
  - intros t accepted. unfold calculateConfidence.
    cbn [Nat.eqb rm_totalApplications rm_acceptedCount].
    assert (Hd : (match lastUsed with
                  | Some used0 =>
                      if truthy_str lastUsed
                      then Qpower (99 # 100) (daysBetween used0 now) else 1
                  | None => 1
                  end
                  = match lastUsed with
                    | Some u =>
                        if String.eqb u "" then 1
                        else Qpower (99 # 100) (daysBetween u now)
                    | None => 1
                    end)%Q).
    { destruct lastUsed as [u|]; [|reflexivity]. cbn.
      by destruct (String.eqb u ""). }
    rewrite Hd.
    apply Q.max_compat; [reflexivity|].
    apply Qmult_comp; [|reflexivity].
    apply Qplus_comp; [reflexivity|].
    apply Qmult_comp; reflexivity.
  - intros total accepted k. unfold calculateConfidence.
    cbn [rm_totalApplications rm_acceptedCount].
    destruct (total =? 0)%nat; [apply Qle_refl|].
    apply Q.max_le_compat_l.
    apply Qmult_le_compat_r.
    + rewrite Qplus_le_r.
      apply Qmult_le_l; [reflexivity|]. apply laplace_monotone.
    + destruct lastUsed as [u|]; [|discriminate].
      destruct (truthy_str (Some u)); [apply decay_nonneg | discriminate].
Qed.

(** ** Association lists *)

Lemma assoc_get_set_eq {A} k (v : A) l : assoc_get k (assoc_set k v l) = Some v.
Proof.
  induction l as [|[k' v'] l IH]; cbn.
  - by rewrite String.eqb_refl.
  - destruct (String.eqb k k') eqn:E; cbn; rewrite ?String.eqb_refl, ?E; done.
Qed.

Lemma assoc_get_set_ne {A} k k' (v : A) l :
  k <> k' -> assoc_get k' (assoc_set k v l) = assoc_get k' l.
Proof.
  intros Hne. induction l as [|[k'' v''] l IH]; cbn.
  - destruct (String.eqb_spec k' k); congruence.
  - destruct (String.eqb_spec k k''); cbn.
    + subst k''. destruct (String.eqb_spec k' k); congruence.
    + destruct (String.eqb_spec k' k''); congruence.
Qed.

Lemma assoc_has_set {A} k k' (v : A) l :
  assoc_has k' (assoc_set k v l) = String.eqb k' k || assoc_has k' l.
Proof.
  unfold assoc_has. destruct (String.eqb_spec k' k) as [->|Hne].
  - by rewrite assoc_get_set_eq.
  - rewrite assoc_get_set_ne by congruence. reflexivity.
Qed.

(** ** Merging proposals and raw fields *)

(** After the loop over the proposals one confidence was collected per
    proposal, and a key no proposal names is as it was. *)
Lemma apply_proposals_fold (proposals : Proposals) output confs :
  snd (fold_left apply_proposal proposals (output, confs))
  = (confs ++ map (fun e => fc_confidence (snd e)) proposals)%list
  /\ forall field,
       covered proposals field = false ->
       assoc_get field (fst (fold_left apply_proposal proposals (output, confs)))
       = assoc_get field output.
Proof.
  revert output confs. induction proposals as [|[f p] ps IH]; intros output confs.
  - cbn. split; [by rewrite app_nil_r|]. done.
  - cbn [fold_left]. unfold apply_proposal at 2 4. cbn [fst snd].
    destruct (IH (assoc_set f (fc_value p) output)
                (confs ++ [fc_confidence p])%list) as [Hc Hh].
    split.
    + rewrite Hc, <- app_assoc. reflexivity.
    + intros field Hcov. unfold covered in Hcov. cbn [existsb fst] in Hcov.
      fold (covered ps field) in Hcov. apply orb_false_elim in Hcov as [Hne Hcov].
      rewrite Hh by exact Hcov. apply assoc_get_set_ne.
      intros ->. by rewrite String.eqb_refl in Hne.
Qed.

Lemma apply_proposals_covered (proposals : Proposals) output confs field :
  covered proposals field = true ->
  is_Some (assoc_get field (fst (fold_left apply_proposal proposals (output, confs)))).
Proof.
  revert output confs. induction proposals as [|[f p] ps IH]; intros output confs;
    [discriminate|].
  intros Hcov. cbn [fold_left]. unfold apply_proposal at 2. cbn [fst snd].
  unfold covered in Hcov. cbn [existsb fst] in Hcov.
  fold (covered ps field) in Hcov. destruct (covered ps field) eqn:Hps.
  - by apply IH.
  - rewrite orb_false_r in Hcov. apply String.eqb_eq in Hcov. subst f.
    destruct (apply_proposals_fold ps (assoc_set field (fc_value p) output)
                (confs ++ [fc_confidence p])%list) as [_ Hkeep].
    rewrite Hkeep, assoc_get_set_eq by done. by eexists.
Qed.

Lemma fill_field_step `{Host} (inv : Invoice) output confs f :
  fill_field inv (output, confs) f
  = if copied inv output f
    then (assoc_set f (invoice_get inv f) output,
          (confs ++ [raw_confidence inv f])%list)
    else (output, confs).
Proof.
  unfold fill_field, copied, raw_confidence. cbn [fst snd].
  destruct (assoc_has f output); [reflexivity|].
  destruct (is_undefined (invoice_get inv f)) eqn:E; [reflexivity|].
  cbn. rewrite orb_false_r. by destruct (is_null _).
Qed.

Lemma copied_after_set (inv : Invoice) output f g :
  g <> f ->
  copied inv (assoc_set f (invoice_get inv f) output) g = copied inv output g.
Proof.
  intros Hne. unfold copied. rewrite assoc_has_set.
  by destruct (String.eqb_spec g f).
Qed.

(** The loop over distinct raw fields: a confidence per copied field, in
    order, and the copied fields added to the output. *)
Lemma fill_fields_fold `{Host} (inv : Invoice) (fs : list string) output confs :
  List.NoDup fs ->
  snd (fold_left (fill_field inv) fs (output, confs))
  = (confs ++ map (raw_confidence inv) (List.filter (copied inv output) fs))%list
  /\ forall field,
       assoc_get field (fst (fold_left (fill_field inv) fs (output, confs)))
       = if existsb (String.eqb field) fs && copied inv output field
         then Some (invoice_get inv field)
         else assoc_get field output.
Proof.
  intros Hnd. revert output confs.
  induction Hnd as [|f fs Hnotin Hnd IH]; intros output confs.
  - cbn. split; [by rewrite app_nil_r|]. done.
  - cbn [fold_left]. rewrite fill_field_step.
    assert (Hex : existsb (String.eqb f) fs = false).
    { apply not_true_is_false. intros Hex.
      apply existsb_exists in Hex as (g & Hin & Heq).
      apply String.eqb_eq in Heq. subst. contradiction. }
    destruct (copied inv output f) eqn:Hcp.
    + destruct (IH (assoc_set f (invoice_get inv f) output)
                  (confs ++ [raw_confidence inv f])%list) as [Hc Hg].
      split.
      * rewrite Hc. cbn [List.filter]. rewrite Hcp. cbn [map].
        rewrite <- app_assoc. cbn [app]. do 3 f_equal.
        clear -Hnotin. induction fs as [|g gs IHg]; [reflexivity|].
        cbn [List.filter]. rewrite copied_after_set.
        -- rewrite IHg; [reflexivity|]. intros Hin. apply Hnotin. by right.
        -- intros ->. apply Hnotin. by left.
      * intros field. rewrite Hg. cbn [existsb].
        destruct (String.eqb_spec field f) as [->|Hne].
        -- cbn [orb andb]. rewrite Hcp, Hex. cbn [andb].
           by rewrite assoc_get_set_eq.
        -- cbn [orb]. rewrite copied_after_set by done.
           rewrite assoc_get_set_ne by congruence. reflexivity.
    + destruct (IH output confs) as [Hc Hg].
      split.
      * rewrite Hc. cbn [List.filter]. by rewrite Hcp.
      * intros field. rewrite Hg. cbn [existsb].
        destruct (String.eqb_spec field f) as [->|Hne]; [|reflexivity].
        cbn [orb andb]. rewrite Hcp, Hex. reflexivity.
Qed.

Lemma fill_fields_nodup : List.NoDup fill_fields.
Proof.
  unfold fill_fields.
  repeat (constructor; [cbn; intuition discriminate|]). constructor.
Qed.

(** What [decide] builds before it looks at the store. *)
Lemma merge_output_spec `{Host} (inv : Invoice) (proposals : Proposals) :
  snd (merge_output inv proposals)
  = (map (fun e => fc_confidence (snd e)) proposals
       ++ map (raw_confidence inv)
            (List.filter
               (fun field =>
                  negb (covered proposals field)
                  && negb (is_undefined (invoice_get inv field)))
               fill_fields))%list
  /\ forall field,
       List.In field fill_fields -> covered proposals field = false ->
       assoc_get field (fst (merge_output inv proposals))
       = if is_undefined (invoice_get inv field) then None
         else Some (invoice_get inv field).
Proof.
  unfold merge_output.
  set (output0 := [("invoiceId", JStr (inv_id inv));
                   ("vendor", JStr (inv_vendor inv));
                   ("invoiceNumber", JStr (inv_invoiceNumber inv))]).
  destruct (apply_proposals_fold proposals output0 []) as [Hc Hh].
  destruct (fold_left apply_proposal proposals (output0, [])) as [output1 confs1]
    eqn:E1.
  cbn [fst snd] in Hc, Hh. subst confs1.
  destruct (fill_fields_fold inv fill_fields output1
              ([] ++ map (fun e => fc_confidence (snd e)) proposals)%list
              fill_fields_nodup) as [Hc2 Hg2].
  assert (H0 : forall field, List.In field fill_fields ->
            assoc_get field output0 = None).
  { intros field Hin. unfold fill_fields in Hin. cbn in Hin.
    repeat (destruct Hin as [<-|Hin]; [reflexivity|]). contradiction. }
  assert (Hcp : forall field, List.In field fill_fields ->
            covered proposals field = false ->
            copied inv output1 field
            = negb (is_undefined (invoice_get inv field))).
  { intros field Hin Hcov. unfold copied, assoc_has.
    by rewrite Hh, H0. }
  assert (Hcp' : forall field, List.In field fill_fields ->
            covered proposals field = true -> copied inv output1 field = false).
  { intros field Hin Hcov. unfold copied, assoc_has.
    pose proof (apply_proposals_covered proposals output0 [] field Hcov) as Hsome.
    rewrite E1 in Hsome. cbn [fst] in Hsome. by destruct Hsome as [? ->]. }
  split.
  - rewrite Hc2. cbn [app]. do 2 f_equal.
    apply List.filter_ext_in. intros field Hin.
    destruct (covered proposals field) eqn:Hcov.
    + by rewrite Hcp'.
    + by rewrite Hcp.
  - intros field Hin Hcov. rewrite Hg2.
    assert (Hex : existsb (String.eqb field) fill_fields = true).
    { apply existsb_exists. exists field. split; [done|apply String.eqb_refl]. }
    rewrite Hex, Hcp by done. cbn [andb].
    destruct (is_undefined (invoice_get inv field)); cbn [negb]; [|done].
    by rewrite Hh, H0.
Qed.

Lemma fold_left_fl_exact `{Host} (l : list Q) (a : Q) :
  (forall q, fl q = q) ->
  (fold_left (fun a b => fl (a + b)%Q) l a == a + Qsum l)%Q.
Proof.
  intros Hfl. revert a. induction l as [|x l IH]; intros a; cbn.
  - by rewrite Qplus_0_r.
  - rewrite IH, Hfl. by rewrite Qplus_assoc.
Qed.

(** [decide] returns unless the line-item rule throws. *)
Lemma decide_returns `{Host} now context proposals st :
  amount_mismatch (fst (merge_output (invoice context) proposals)) <> None ->
  returned (decide now context proposals st) = true.
Proof.
  intros Ham. unfold decide.
  destruct (merge_output (invoice context) proposals) as [output confs].
  cbn [fst] in Ham. unfold shouldEscalate.
  destruct (isDuplicate st _); [reflexivity|].
  destruct (vendorMemory context); [|reflexivity].
  destruct (List.find _ _); [reflexivity|].
  destruct (Qlt_bool _ _); [reflexivity|].
  destruct (amount_mismatch output) as [[r|]|]; [reflexivity|reflexivity|done].
Qed.

(** The reduction over an array without [null] and [undefined] items
    does not throw. *)
Lemma lineItemSum_returns `{Host} (items : list JsValue) :
  Forall (fun item => item <> JNull /\ item <> JUndefined) items ->
  lineItemSum (JArr items) <> None.
Proof.
  intros Hitems. unfold lineItemSum.
  assert (Hgen : forall start,
            fold_left add_item items (Some start) <> None).
  { induction Hitems as [|item items [Hn Hu] _ IH]; intros start; [done|].
    cbn [fold_left].
    destruct item; try (cbn; apply IH); contradiction. }
  apply Hgen.
Qed.

Lemma amount_mismatch_returns `{Host} output :
  (truthy (output_get output "lineItems") = false
   \/ exists items,
        output_get output "lineItems" = JArr items
        /\ Forall (fun item => item <> JNull /\ item <> JUndefined) items) ->
  amount_mismatch output <> None.
Proof.
  unfold amount_mismatch. intros [Hf|(items & Hl & Hitems)].
  - by rewrite Hf.
  - rewrite Hl.
    destruct (truthy (JArr items) && length_positive (JArr items)
              && truthy (output_get output "totalAmount")); [|done].
    pose proof (lineItemSum_returns items Hitems) as Hs.
    destruct (lineItemSum (JArr items)); [|done].
    by destruct (_ && _).
Qed.


Lemma filter_map_pairs {A B} (f : A -> B) (p : A * B -> bool) (l : list A) :
  List.filter p (map (fun x => (x, f x)) l)
  = map (fun x => (x, f x)) (List.filter (fun x => p (x, f x)) l).
Proof.
  induction l as [|x l IH]; [reflexivity|]. cbn.
  destruct (p (x, f x)); cbn; by rewrite IH.
Qed.

(** C4 (as the code has it).  [decide] collects one confidence per
    proposal and then, for every field of the fixed set that has no
    proposal and is defined in the raw invoice, 0.0 when the raw value is
    [null] and 0.70 otherwise; after the loops the output holds such a
    field with its raw value.  A field of the fixed set without a proposal
    that the raw invoice does not define contributes no value and is not
    in the output.  The contract's confidence is the mean of the collected
    values as the code computes it, the sum from left to right divided by
    their number, and 0 when there are none; [decide] returns such a
    contract whenever the output's line items are falsy or an array
    without [null] and [undefined] items. *)
Theorem decide_confidence_is_mean_of_collected `{Host} (now : string)
    (context : ProcessingContext) (proposals : Proposals) (st : MemoryStore) :
  let inv := invoice context in
  let raw :=
    [("date", inv_date inv); ("serviceDate", inv_serviceDate inv);
     ("dueDate", inv_dueDate inv); ("totalAmount", inv_totalAmount inv);
     ("taxAmount", inv_taxAmount inv); ("netAmount", inv_netAmount inv);
     ("currency", inv_currency inv); ("lineItems", inv_lineItems inv);
     ("paymentTerms", inv_paymentTerms inv); ("poNumber", inv_poNumber inv)] in
  let output := fst (merge_output inv proposals) in
  let confs := snd (merge_output inv proposals) in
  confs
  = (map (fun e => fc_confidence (snd e)) proposals
       ++ map (fun fv => if is_null (snd fv) then 0%Q else fl (7 # 10))
            (List.filter
               (fun fv => negb (covered proposals (fst fv))
                          && negb (is_undefined (snd fv)))
               raw))%list
  /\ (forall field value,
        List.In (field, value) raw -> covered proposals field = false ->
        assoc_get field output
        = if is_undefined value then None else Some value)
  /\ overall_confidence [] = 0%Q
  /\ (forall c cs,
        overall_confidence (c :: cs)
        = fl (fold_left (fun a b => fl (a + b)%Q) (c :: cs) 0%Q
              / inject_Z (Z.of_nat (length (c :: cs))))%Q)
  /\ ((forall q, fl q = q) ->
      forall c cs,
        (overall_confidence (c :: cs)
         == Qsum (c :: cs) / inject_Z (Z.of_nat (length (c :: cs))))%Q)
  /\ (forall contract st',
        decide now context proposals st = Some (contract, st') ->
        confidence contract = overall_confidence confs
        /\ fields contract = output)
  /\ (truthy (output_get output "lineItems") = false
      \/ (exists items,
            output_get output "lineItems" = JArr items
            /\ Forall (fun item => item <> JNull /\ item <> JUndefined) items) ->
      exists contract st',
        decide now context proposals st = Some (contract, st')
        /\ confidence contract = overall_confidence confs
        /\ fields contract = output).
Proof.
  cbn zeta.
  destruct (merge_output_spec (invoice context) proposals) as [Hc Hg].
  assert (Hraw : [("date", inv_date (invoice context));
                  ("serviceDate", inv_serviceDate (invoice context));
                  ("dueDate", inv_dueDate (invoice context));
                  ("totalAmount", inv_totalAmount (invoice context));
                  ("taxAmount", inv_taxAmount (invoice context));
                  ("netAmount", inv_netAmount (invoice context));
                  ("currency", inv_currency (invoice context));
                  ("lineItems", inv_lineItems (invoice context));
                  ("paymentTerms", inv_paymentTerms (invoice context));
                  ("poNumber", inv_poNumber (invoice context))]
                 = map (fun field => (field, invoice_get (invoice context) field))
                     fill_fields) by reflexivity.
  assert (Hcontract : forall contract st',
            decide now context proposals st = Some (contract, st') ->
            confidence contract
            = overall_confidence (snd (merge_output (invoice context) proposals))
            /\ fields contract = fst (merge_output (invoice context) proposals)).
  { intros contract st'. unfold decide.
    destruct (merge_output (invoice context) proposals) as [output confs].
    destruct (shouldEscalate _ _ _ _ _); [|discriminate].
    intros [= <- _]. by cbn. }
  split; [|split; [|split; [|split; [|split; [|split]]]]].
  - rewrite Hc, Hraw, filter_map_pairs, map_map. reflexivity.
  - intros field value Hin Hcov. rewrite Hraw in Hin.
    apply in_map_iff in Hin as (f & [= <- <-] & Hin).
    by apply Hg.
  - reflexivity.
  - reflexivity.
  - intros Hfl c cs. unfold overall_confidence. cbn [length Nat.ltb Nat.leb].
    rewrite Hfl. apply Qmult_comp; [|reflexivity].
    rewrite (fold_left_fl_exact _ _ Hfl). apply Qplus_0_l.
  - exact Hcontract.
  - intros Hitems.
    pose proof (decide_returns now context proposals st
                  (amount_mismatch_returns _ Hitems)) as Hret.
    destruct (decide now context proposals st) as [[contract st']|] eqn:E;
      [|discriminate].
    exists contract, st'. split; [reflexivity|]. by apply (Hcontract contract st').
Qed.

(** C4, counterexample.  For an invoice that carries only a date and no
    proposals the code collects the single value 0.70, so the confidence
    is 0.70; the specification's wording gives ten values, nine of them
    0.0, and a mean of 0.07. *)
Lemma absent_raw_field_collects_nothing :
  snd (merge_output invoice_date_only []) = [(7 # 10)%Q]
  /\ spec_confidences invoice_date_only []
     = [(7 # 10)%Q; 0%Q; 0%Q; 0%Q; 0%Q; 0%Q; 0%Q; 0%Q; 0%Q; 0%Q]
  /\ (overall_confidence (snd (merge_output invoice_date_only [])) == 7 # 10)%Q
  /\ (overall_confidence (spec_confidences invoice_date_only []) == 7 # 100)%Q
  /\ (exists contract st',
        decide "2024-01-01T00:00:00.000Z"
          (example_context invoice_date_only (Some example_vendor)) []
          empty_store = Some (contract, st')
        /\ (confidence contract == 7 # 10)%Q
        /\ ~ (confidence contract
              == overall_confidence (spec_confidences invoice_date_only []))%Q).
Proof.
  split; [reflexivity|]. split; [reflexivity|].
  split; [vm_compute; reflexivity|]. split; [vm_compute; reflexivity|].
  eexists _, _. split; [vm_compute; reflexivity|].
  split; [vm_compute; reflexivity|]. vm_compute. discriminate.
Qed.

(** A total that a rule proposes as a string is converted to a number by
    the line-item rule; [decide] returns, here with an approval. *)
Example string_total_is_converted :
  exists contract st',
    decide "2024-01-01T00:00:00.000Z"
      (example_context invoice_one_item (Some example_vendor))
      proposals_string_total empty_store = Some (contract, st')
    /\ requiresHumanReview contract = false
    /\ (confidence contract == ((95 # 100) + (95 # 100) + (7 # 10)) / 3)%Q.
Proof.
  eexists _, _. split; [vm_compute; reflexivity|].
  split; [reflexivity|]. vm_compute. reflexivity.
Qed.

(** ** Escalation policy *)

Lemma Qlt_bool_iff (x y : Q) : Qlt_bool x y = true <-> (x < y)%Q.
Proof.
  unfold Qlt_bool. rewrite negb_true_iff. split.
  - intros Hb. apply Qnot_le_lt. intros Hle.
    apply Qle_bool_iff in Hle. congruence.
  - intros Hlt. apply not_true_is_false. intros Hb.
    apply Qle_bool_iff in Hb. by apply Qlt_not_le in Hlt.
Qed.

Lemma Qlt_bool_false_iff (x y : Q) : Qlt_bool x y = false <-> ~ (x < y)%Q.
Proof.
  rewrite <- Qlt_bool_iff. by destruct (Qlt_bool x y); split.
Qed.

Lemma critical_fails_iff `{Host} output proposals field :
  critical_fails output proposals field = true
  <-> critical_low output proposals field.
Proof.
  unfold critical_fails, critical_low. rewrite orb_true_iff, negb_true_iff.
  split; (intros [Hl|Hr]; [by left|right]).
  - destruct (assoc_get field proposals) as [p|]; [|discriminate].
    exists p. split; [done|]. by apply Qlt_bool_iff.
  - destruct Hr as (p & -> & Hlt). by apply Qlt_bool_iff.
Qed.

Lemma critical_fails_false_iff `{Host} output proposals field :
  critical_fails output proposals field = false
  <-> ~ critical_low output proposals field.
Proof.
  rewrite <- critical_fails_iff.
  by destruct (critical_fails output proposals field); split.
Qed.

(** [decide] in terms of [shouldEscalate]. *)
Lemma decide_review `{Host} now context proposals st decision :
  shouldEscalate context (fst (merge_output (invoice context) proposals))
    (overall_confidence (snd (merge_output (invoice context) proposals)))
    proposals (isDuplicate st (fingerprint_of (invoice context)))
  = Some decision ->
  exists contract st',
    decide now context proposals st = Some (contract, st')
    /\ requiresHumanReview contract = required decision
    /\ reasoning contract = rd_reasoning decision
    /\ st' = (if isDuplicate st (fingerprint_of (invoice context)) then st
              else recordProcessedInvoice (fingerprint_of (invoice context))
                     (inv_id (invoice context)) (inv_vendor (invoice context))
                     (inv_invoiceNumber (invoice context))
                     (inv_totalAmount (invoice context)) now st).
Proof.
  intros Hs. unfold decide, fingerprint_of in *.
  destruct (merge_output (invoice context) proposals) as [output confs].
  cbn [fst snd] in Hs. rewrite Hs.
  eexists _, _. split; [reflexivity|]. cbn. done.
Qed.

(** The rules one by one. *)
Lemma shouldEscalate_duplicate `{Host} context output overall proposals :
  shouldEscalate context output overall proposals true
  = Some {| required := true; rd_reasoning := duplicate_reasoning |}.
Proof. reflexivity. Qed.

Lemma shouldEscalate_new_vendor `{Host} context output overall proposals :
  vendorMemory context = None ->
  shouldEscalate context output overall proposals false
  = Some {| required := true; rd_reasoning := new_vendor_reasoning |}.
Proof. intros Hvm. unfold shouldEscalate. by rewrite Hvm. Qed.

Lemma shouldEscalate_critical `{Host} context output overall proposals vm field :
  vendorMemory context = Some vm ->
  List.find (critical_fails output proposals) criticalFields = Some field ->
  shouldEscalate context output overall proposals false
  = Some {| required := true; rd_reasoning := critical_reasoning field |}.
Proof. intros Hvm Hf. unfold shouldEscalate. by rewrite Hvm, Hf. Qed.

Lemma shouldEscalate_overall `{Host} context output overall proposals vm :
  vendorMemory context = Some vm ->
  List.find (critical_fails output proposals) criticalFields = None ->
  Qlt_bool overall (fl (8 # 10)) = true ->
  shouldEscalate context output overall proposals false
  = Some {| required := true; rd_reasoning := overall_reasoning overall |}.
Proof. intros Hvm Hf Hlt. unfold shouldEscalate. by rewrite Hvm, Hf, Hlt. Qed.

Lemma shouldEscalate_amounts `{Host} context output overall proposals vm :
  vendorMemory context = Some vm ->
  List.find (critical_fails output proposals) criticalFields = None ->
  Qlt_bool overall (fl (8 # 10)) = false ->
  shouldEscalate context output overall proposals false
  = match amount_mismatch output with
    | None => None
    | Some (Some r) => Some {| required := true; rd_reasoning := r |}
    | Some None =>
        Some {| required := false; rd_reasoning := approve_reasoning overall |}
    end.
Proof. intros Hvm Hf Hlt. unfold shouldEscalate. by rewrite Hvm, Hf, Hlt. Qed.

Lemma find_critical_none `{Host} output proposals :
  List.find (critical_fails output proposals) criticalFields = None
  <-> ~ critical_low output proposals "totalAmount"
      /\ ~ critical_low output proposals "date"
      /\ ~ critical_low output proposals "vendor".
Proof.
  rewrite <- !critical_fails_false_iff. unfold criticalFields. cbn [List.find].
  destruct (critical_fails output proposals "totalAmount");
    destruct (critical_fails output proposals "date");
    destruct (critical_fails output proposals "vendor"); intuition discriminate.
Qed.

(** The reduction over items whose amounts are numbers or absent. *)
Lemma lineItemSum_amounts `{Host} (items : list JsValue) (amounts : list Q) :
  Forall2 item_counts_as items amounts ->
  lineItemSum (JArr items) = Some (JNum (rounded_sum amounts)).
Proof.
  intros Hitems. unfold lineItemSum, rounded_sum.
  generalize 0%Q as start.
  induction Hitems as [|item a items amounts Hitem _ IH]; intros start;
    [reflexivity|].
  cbn [fold_left]. rewrite <- IH. f_equal.
  destruct Hitem as (props & -> & [[Hnone ->]|(x & Hsome & ->)]).
  - cbn [add_item]. by rewrite Hnone.
  - cbn [add_item]. rewrite Hsome. unfold js_or, js_plus, default.
    cbn [from_option id truthy as_number].
    by destruct (Qeq_bool x 0).
Qed.

(** The line-item rule on a non-empty array of such items. *)
Lemma amount_mismatch_amounts `{Host} output items amounts :
  output_get output "lineItems" = JArr items ->
  items <> [] ->
  truthy (output_get output "totalAmount") = true ->
  Forall2 item_counts_as items amounts ->
  amount_mismatch output
  = Some (if num_gt
               (num_abs (num_sub (ToNumber (output_get output "totalAmount"))
                           (NFin (rounded_sum amounts))))
               (fl (1 # 100))
             && Qgt_bool (rounded_sum amounts) 0
          then Some (mismatch_reasoning (output_get output "totalAmount")
                       (JNum (rounded_sum amounts)))
          else None).
Proof.
  intros Hl Hne Ht Hitems. unfold amount_mismatch.
  rewrite Hl, Ht, (lineItemSum_amounts items amounts Hitems).
  cbn [truthy length_positive ToNumber num_gt andb].
  assert (Hlen : (0 <? length items)%nat = true) by (by destruct items).
  rewrite Hlen. cbn [andb].
  destruct (_ && _); reflexivity.
Qed.


(** C1 (as the code has it).  [decide] tries the rules in the order
    duplicate, new vendor, critical field (total amount, then date, then
    vendor), overall confidence, amount mismatch; the first rule that
    fires gives [requiresHumanReview = true] with its reasoning, whatever
    the later rules would give.  The amount-mismatch rule fires when the
    line items are a non-empty array, the total is truthy, the total and
    the sum of the line-item amounts differ by more than 0.01 and that
    sum is greater than zero.  When no rule fires the invoice is
    auto-approved. *)
Theorem decide_escalation_priority `{Host} (now : string)
    (context : ProcessingContext) (proposals : Proposals) (st : MemoryStore) :
  let output := fst (merge_output (invoice context) proposals) in
  let overall := overall_confidence (snd (merge_output (invoice context) proposals)) in
  let dup := isDuplicate st (fingerprint_of (invoice context)) in
  let low := critical_low output proposals in
  let total := output_get output "totalAmount" in
  let decided review text :=
    exists contract st',
      decide now context proposals st = Some (contract, st')
      /\ requiresHumanReview contract = review
      /\ reasoning contract = text in
  (dup = true -> decided true duplicate_reasoning)
  /\ (dup = false -> vendorMemory context = None ->
      decided true new_vendor_reasoning)
  /\ (dup = false -> vendorMemory context <> None ->
      (low "totalAmount" -> decided true (critical_reasoning "totalAmount"))
      /\ (~ low "totalAmount" -> low "date" ->
          decided true (critical_reasoning "date"))
      /\ (~ low "totalAmount" -> ~ low "date" -> low "vendor" ->
          decided true (critical_reasoning "vendor"))
      /\ (~ low "totalAmount" -> ~ low "date" -> ~ low "vendor" ->
          ((overall < fl (8 # 10))%Q -> decided true (overall_reasoning overall))
          /\ (~ (overall < fl (8 # 10))%Q ->
              (forall items amounts,
                 output_get output "lineItems" = JArr items -> items <> [] ->
                 Forall2 item_counts_as items amounts ->
                 let sum := rounded_sum amounts in
                 let differs :=
                   num_gt (num_abs (num_sub (ToNumber total) (NFin sum)))
                     (fl (1 # 100)) = true in
                 (differs -> (0 < sum)%Q ->
                  decided true (mismatch_reasoning total (JNum sum)))
                 /\ (~ (differs /\ (0 < sum)%Q) ->
                     decided false (approve_reasoning overall))
                 /\ (forall t, total = JNum t ->
                               (differs <-> (fl (1 # 100) < Qabs (fl (t - sum)))%Q)))
              /\ (truthy (output_get output "lineItems") = false
                  \/ output_get output "lineItems" = JArr [] ->
                  decided false (approve_reasoning overall))))).
Proof.
  cbn zeta.
  pose proof (decide_review now context proposals st) as Hdec.
  revert Hdec.
  generalize (fst (merge_output (invoice context) proposals)) as output.
  generalize (overall_confidence (snd (merge_output (invoice context) proposals)))
    as overall.
  generalize (isDuplicate st (fingerprint_of (invoice context))) as dup.
  intros dup overall output Hdec.
  assert (Hd : forall review text,
            shouldEscalate context output overall proposals dup
            = Some {| required := review; rd_reasoning := text |} ->
            exists contract st',
              decide now context proposals st = Some (contract, st')
              /\ requiresHumanReview contract = review
              /\ reasoning contract = text).
  { intros review text Hs. destruct (Hdec _ Hs) as (c & st' & H1 & H2 & H3 & _).
    by exists c, st'. }
  clear Hdec.
  split; [|split].
  - intros ->. apply Hd, shouldEscalate_duplicate.
  - intros -> Hvm. by apply Hd, shouldEscalate_new_vendor.
  - intros -> Hvm.
    destruct (vendorMemory context) as [vm|] eqn:Evm; [clear Hvm|done].
    split; [|split; [|split]].
    + intros Hl. apply Hd, (shouldEscalate_critical _ _ _ _ vm); [done|].
      apply critical_fails_iff in Hl. unfold criticalFields. cbn [List.find].
      by rewrite Hl.
    + intros Hn Hl. apply Hd, (shouldEscalate_critical _ _ _ _ vm); [done|].
      apply critical_fails_false_iff in Hn. apply critical_fails_iff in Hl.
      unfold criticalFields. cbn [List.find]. by rewrite Hn, Hl.
    + intros Hn1 Hn2 Hl.
      apply Hd, (shouldEscalate_critical _ _ _ _ vm); [done|].
      apply critical_fails_false_iff in Hn1, Hn2. apply critical_fails_iff in Hl.
      unfold criticalFields. cbn [List.find]. by rewrite Hn1, Hn2, Hl.
    + intros Hn1 Hn2 Hn3.
      assert (Hfind : List.find (critical_fails output proposals) criticalFields
                      = None) by (by apply find_critical_none).
      assert (Htruthy : truthy (output_get output "totalAmount") = true).
      { destruct (truthy (output_get output "totalAmount")) eqn:E; [done|].
        exfalso. apply Hn1. by left. }
      split.
      * intros Hlt. apply Qlt_bool_iff in Hlt.
        by apply Hd, (shouldEscalate_overall _ _ _ _ vm).
      * intros Hnlt. apply Qlt_bool_false_iff in Hnlt.
        pose proof (shouldEscalate_amounts context output overall proposals vm
                      Evm Hfind Hnlt) as Hs.
        split.
        -- intros items amounts Hl Hne Hitems.
           rewrite (amount_mismatch_amounts output items amounts Hl Hne
                      Htruthy Hitems) in Hs.
           split; [|split].
           ++ intros Hdiff Hpos. apply Hd. rewrite Hs, Hdiff.
              apply Qlt_bool_iff in Hpos. unfold Qgt_bool. by rewrite Hpos.
           ++ intros Hnot. apply Hd. rewrite Hs.
              destruct (num_gt _ _) eqn:E1; [|reflexivity].
              unfold Qgt_bool. destruct (Qlt_bool 0 _) eqn:E2; [|reflexivity].
              exfalso. apply Hnot. split; [reflexivity|by apply Qlt_bool_iff].
           ++ intros t ->. cbn [ToNumber num_sub num_abs num_gt].
              unfold Qgt_bool. apply Qlt_bool_iff.
        -- intros Hcase. apply Hd. rewrite Hs.
           assert (Ham : amount_mismatch output = Some None).
           { unfold amount_mismatch. destruct Hcase as [Hf|He].
             - by rewrite Hf.
             - by rewrite He. }
           by rewrite Ham.
Qed.


(** C1, counterexample.  A known vendor, no duplicate, total and date
    proposed with confidence 0.95, overall confidence 0.87; one line item
    without an amount, so the line-item sum is 0 and differs from the
    total of 100 by more than 0.01.  The code auto-approves: the mismatch
    rule also requires the sum to be greater than zero. *)
Lemma zero_line_item_sum_is_approved :
  isDuplicate empty_store (fingerprint_of invoice_unpriced_item) = false
  /\ vendorMemory context_unpriced_item <> None
  /\ List.find
       (critical_fails
          (fst (merge_output invoice_unpriced_item proposals_total_date))
          proposals_total_date)
       criticalFields = None
  /\ Qlt_bool
       (overall_confidence
          (snd (merge_output invoice_unpriced_item proposals_total_date)))
       (8 # 10) = false
  /\ output_get (fst (merge_output invoice_unpriced_item proposals_total_date))
       "lineItems"
     = JArr [JObj [("description", JStr "Consulting")]]
  /\ output_get (fst (merge_output invoice_unpriced_item proposals_total_date))
       "totalAmount"
     = JNum 100
  /\ lineItemSum (JArr [JObj [("description", JStr "Consulting")]])
     = Some (JNum 0)
  /\ (1 # 100 < Qabs (100 - 0))%Q
  /\ exists contract st',
       decide "2024-01-01T00:00:00.000Z" context_unpriced_item
         proposals_total_date empty_store = Some (contract, st')
       /\ requiresHumanReview contract = false.
Proof.
  split; [vm_compute; reflexivity|]. split; [discriminate|].
  split; [vm_compute; reflexivity|]. split; [vm_compute; reflexivity|].
  split; [vm_compute; reflexivity|]. split; [vm_compute; reflexivity|].
  split; [vm_compute; reflexivity|]. split; [reflexivity|].
  eexists _, _. split; [vm_compute; reflexivity|reflexivity].
Qed.

(** C10.  When the merged output has a falsy total amount, date or
    vendor, [decide] returns a contract that requires human review. *)
Theorem falsy_critical_field_requires_review `{Host} (now : string)
    (context : ProcessingContext) (proposals : Proposals) (st : MemoryStore)
    (field : string) :
  field = "totalAmount" \/ field = "date" \/ field = "vendor" ->
  truthy (output_get (fst (merge_output (invoice context) proposals)) field)
  = false ->
  exists contract st',
    decide now context proposals st = Some (contract, st')
    /\ requiresHumanReview contract = true.
Proof.
  intros Hin Hfalsy.
  pose proof (decide_review now context proposals st) as Hdec.
  revert Hdec Hfalsy.
  generalize (fst (merge_output (invoice context) proposals)) as output.
  generalize (overall_confidence (snd (merge_output (invoice context) proposals)))
    as overall.
  generalize (isDuplicate st (fingerprint_of (invoice context))) as dup.
  intros dup overall output Hdec Hfalsy.
  assert (Hsome : forall text,
            shouldEscalate context output overall proposals dup
            = Some {| required := true; rd_reasoning := text |} ->
            exists contract st',
              decide now context proposals st = Some (contract, st')
              /\ requiresHumanReview contract = true).
  { intros text Hs. destruct (Hdec _ Hs) as (c & st' & H1 & H2 & _).
    by exists c, st'. }
  clear Hdec.
  destruct dup; [eapply Hsome, shouldEscalate_duplicate|].
  destruct (vendorMemory context) as [vm|] eqn:Evm;
    [|by eapply Hsome, shouldEscalate_new_vendor].
  destruct (List.find (critical_fails output proposals) criticalFields)
    as [f|] eqn:Ef; [by eapply Hsome, shouldEscalate_critical|].
  exfalso. apply find_critical_none in Ef. destruct Ef as (H1 & H2 & H3).
  assert (Hlow : critical_low output proposals field) by (by left).
  destruct Hin as [-> | [-> | ->]]; contradiction.
Qed.

(** C10, on an invoice whose genuine total is 0. *)
Lemma falsy_critical_field_requires_review_witness :
  exists contract st',
    decide "2024-01-01T00:00:00.000Z" context_zero_total [] empty_store
    = Some (contract, st')
    /\ requiresHumanReview contract = true.
Proof.
  apply (falsy_critical_field_requires_review "2024-01-01T00:00:00.000Z"
           context_zero_total [] empty_store "totalAmount").
  - left. reflexivity.
  - vm_compute. reflexivity.
Defined.


(** ** Duplicate detection *)

Lemma processed_recordResolution ruleId invoiceId outcome tUsed tEntry st :
  processed_invoices (recordResolution ruleId invoiceId outcome tUsed tEntry st)
  = processed_invoices st.
Proof. reflexivity. Qed.

Lemma processed_recordResolutions proposals humanCorrection now st :
  processed_invoices (recordResolutions proposals humanCorrection now st)
  = processed_invoices st.
Proof.
  unfold recordResolutions. revert st.
  induction proposals as [|[field p] ps IH]; intros st; [reflexivity|].
  cbn [fold_left]. rewrite IH. unfold record_one.
  destruct (fc_ruleId p) as [ruleId|]; [|reflexivity].
  by destruct (negb (String.eqb ruleId "")).
Qed.

Lemma isDuplicate_recorded fingerprint invoiceId vendor invoiceNumber total now st :
  isDuplicate
    (recordProcessedInvoice fingerprint invoiceId vendor invoiceNumber total now st)
    fingerprint = true.
Proof.
  unfold isDuplicate, recordProcessedInvoice, set_processed_invoices.
  cbn [processed_invoices]. by rewrite lookup_insert_eq.
Qed.

Lemma isDuplicate_record_keeps fp fingerprint invoiceId vendor invoiceNumber total
    now st :
  isDuplicate st fp = true ->
  isDuplicate
    (recordProcessedInvoice fingerprint invoiceId vendor invoiceNumber total now st)
    fp = true.
Proof.
  unfold isDuplicate, recordProcessedInvoice, set_processed_invoices.
  cbn [processed_invoices]. intros Hd.
  destruct (String.eqb_spec fingerprint fp) as [->|Hne].
  - by rewrite lookup_insert_eq.
  - by rewrite lookup_insert_ne.
Qed.

(** The store [decide] leaves: the store it found when the fingerprint
    was recorded, and otherwise that store with the fingerprint added. *)
Lemma decide_store `{Host} now context proposals st contract st' :
  decide now context proposals st = Some (contract, st') ->
  st' = (if isDuplicate st (fingerprint_of (invoice context)) then st
         else recordProcessedInvoice (fingerprint_of (invoice context))
                (inv_id (invoice context)) (inv_vendor (invoice context))
                (inv_invoiceNumber (invoice context))
                (inv_totalAmount (invoice context)) now st).
Proof.
  unfold decide, fingerprint_of.
  destruct (merge_output (invoice context) proposals) as [output confs].
  destruct (shouldEscalate _ _ _ _ _); [|discriminate].
  intros [= _ <-]. reflexivity.
Qed.

(** No call removes a fingerprint. *)
Lemma isDuplicate_run_call `{Host} st call fp :
  isDuplicate st fp = true -> isDuplicate (run_call st call) fp = true.
Proof.
  intros Hd. destruct call; cbn [run_call]; try exact Hd.
  - unfold updateVendorPattern. by destruct (getVendorMemory st vendorId).
  - unfold isDuplicate in *. by rewrite processed_recordResolutions.
  - by apply isDuplicate_record_keeps.
  - destruct (decide now context proposals st) as [[c st']|] eqn:E; [|exact Hd].
    rewrite (decide_store _ _ _ _ _ _ E).
    destruct (isDuplicate st (fingerprint_of (invoice context))); [exact Hd|].
    by apply isDuplicate_record_keeps.
Qed.

Lemma isDuplicate_run_calls `{Host} calls st fp :
  isDuplicate st fp = true -> isDuplicate (run_calls calls st) fp = true.
Proof.
  unfold run_calls. revert st.
  induction calls as [|c cs IH]; intros st Hd; [exact Hd|].
  cbn [fold_left]. apply IH. by apply isDuplicate_run_call.
Qed.

(** C2.  After a call of [decide] on an invoice A that returned, whatever
    it decided, and after any further calls on the store, [decide] on any
    invoice B that has A's vendor, invoice number, date and total amount
    requires human review with the duplicate reasoning, and leaves the
    store as it is. *)
Theorem duplicate_flagged_from_second_submission `{Host} (nowA : string)
    (contextA : ProcessingContext) (proposalsA : Proposals) (st : MemoryStore)
    (calls : list StoreCall) (nowB : string) (contextB : ProcessingContext)
    (proposalsB : Proposals) :
  returned (decide nowA contextA proposalsA st) = true ->
  inv_vendor (invoice contextB) = inv_vendor (invoice contextA) ->
  inv_invoiceNumber (invoice contextB) = inv_invoiceNumber (invoice contextA) ->
  inv_date (invoice contextB) = inv_date (invoice contextA) ->
  inv_totalAmount (invoice contextB) = inv_totalAmount (invoice contextA) ->
  let st2 := run_calls (CallDecide nowA contextA proposalsA :: calls) st in
  exists contractB,
    decide nowB contextB proposalsB st2 = Some (contractB, st2)
    /\ requiresHumanReview contractB = true
    /\ reasoning contractB = duplicate_reasoning.
Proof.
  intros Hret Hv Hn Hd Ht. cbn zeta.
  assert (Hfp : fingerprint_of (invoice contextB) = fingerprint_of (invoice contextA)).
  { unfold fingerprint_of. by rewrite Hv, Hn, Hd, Ht. }
  set (st2 := run_calls (CallDecide nowA contextA proposalsA :: calls) st).
  assert (Hdup : isDuplicate st2 (fingerprint_of (invoice contextB)) = true).
  { unfold st2, run_calls. cbn [fold_left run_call].
    apply isDuplicate_run_calls. rewrite Hfp.
    destruct (decide nowA contextA proposalsA st) as [[cA st1]|] eqn:E;
      [|discriminate].
    rewrite (decide_store _ _ _ _ _ _ E).
    destruct (isDuplicate st (fingerprint_of (invoice contextA))) eqn:E0;
      [exact E0|].
    apply isDuplicate_recorded. }
  destruct (decide_review nowB contextB proposalsB st2
              {| required := true; rd_reasoning := duplicate_reasoning |})
    as (c & st' & Hdec & Hr & Htext & Hst).
  { unfold shouldEscalate. by rewrite Hdup. }
  rewrite Hdup in Hst. subst st'. by exists c.
Qed.

(** C2, on an invoice submitted again with other line items and another
    source text, after two other calls. *)
Lemma duplicate_flagged_from_second_submission_witness :
  exists contractB,
    decide "2024-01-03T00:00:00.000Z"
      (example_context invoice_resubmitted (Some example_vendor)) []
      (run_calls
         (CallDecide "2024-01-01T00:00:00.000Z" context_unpriced_item
            proposals_total_date :: calls_between)
         empty_store)
    = Some (contractB,
            run_calls
              (CallDecide "2024-01-01T00:00:00.000Z" context_unpriced_item
                 proposals_total_date :: calls_between)
              empty_store)
    /\ requiresHumanReview contractB = true
    /\ reasoning contractB = duplicate_reasoning.
Proof.
  apply (duplicate_flagged_from_second_submission "2024-01-01T00:00:00.000Z"
           context_unpriced_item proposals_total_date empty_store calls_between
           "2024-01-03T00:00:00.000Z"
           (example_context invoice_resubmitted (Some example_vendor)) []).
  - vm_compute. reflexivity.
  - reflexivity.
  - reflexivity.
  - reflexivity.
  - reflexivity.
Defined.


(** ** Substrings *)


Lemma append_cons (c : ascii) (a b : string) :
  String c a ++ b = String c (a ++ b).
Proof. reflexivity. Qed.





(** ** Correction rules in the cognitive engine *)





(** ** Rule errors *)








(** ** Rule induction *)

Lemma in_assoc_set {A} (k f : string) (x v : A) (l : list (string * A)) :
  In (f, v) (assoc_set k x l) -> (f, v) = (k, x) \/ In (f, v) l.
Proof.
  induction l as [|[k' v'] l IH]; cbn [assoc_set].
  - intros [Heq|[]]. by left.
  - destruct (String.eqb k k').
    + intros [Heq|Hin]; [by left|right; by right].
    + intros [Heq|Hin]; [right; by left|].
      destruct (IH Hin) as [Heq|Hin']; [by left|right; by right].
Qed.

(** Every change comes from an add or a replace of the patch. *)
Lemma extractChanges_from (patch : list PatchOperation) (f : string) (v : JsValue) :
  In (f, v) (extractChanges patch) ->
  exists o, In o patch /\ (op o = OpAdd \/ op o = OpReplace)
            /\ f = drop_first (path o) /\ v = value o.
Proof.
  unfold extractChanges.
  assert (Hgen : forall changes,
            In (f, v)
              (fold_left
                 (fun changes o =>
                    match op o with
                    | OpReplace | OpAdd =>
                        assoc_set (drop_first (path o)) (value o) changes
                    | _ => changes
                    end) patch changes) ->
            In (f, v) changes
            \/ exists o, In o patch /\ (op o = OpAdd \/ op o = OpReplace)
                         /\ f = drop_first (path o) /\ v = value o).
  { induction patch as [|o patch IH]; intros changes; cbn [fold_left];
      [by left|].
    intros Hin. destruct (IH _ Hin) as [Hhere|(o' & Ho' & Hrest)].
    - destruct (op o) eqn:Eop; try (by left).
      + apply in_assoc_set in Hhere as [Heq|Hold]; [|by left].
        right. exists o. injection Heq as -> ->.
        split; [by left|]. split; [by left|done].
      + apply in_assoc_set in Hhere as [Heq|Hold]; [|by left].
        right. exists o. injection Heq as -> ->.
        split; [by left|]. split; [by right|done].
    - right. exists o'. split; [by right|done]. }
  intros Hin. by destruct (Hgen [] Hin) as [[]|Hex].
Qed.

(** A change whose old and new values are the same is skipped. *)
Lemma induce_changes_unchanged `{Host} now nowMs systemOutput changes result :
  (forall f v, In (f, v) changes ->
               strict_eq (getFieldValue (invoice_to_js systemOutput) f) v = true) ->
  induce_changes now nowMs systemOutput changes result = Some result.
Proof.
  induction changes as [|[f v] changes IH]; intros Hsame; [reflexivity|].
  cbn [induce_changes induce_change].
  rewrite (Hsame f v) by (by left).
  apply IH. intros f' v' Hin. apply Hsame. by right.
Qed.

Lemma append_nil_r (s : string) : s ++ "" = s.
Proof. induction s as [|c s IH]; [reflexivity|]. by rewrite append_cons, IH. Qed.

Lemma rev_app_rev_app (s a b : string) :
  String.rev_app (String.rev_app s a) b = String.rev_app a (s ++ b).
Proof.
  revert a. induction s as [|c s IH]; intros a; [reflexivity|].
  cbn [String.rev_app]. by rewrite IH.
Qed.

Lemma rev_rev (s : string) : String.rev (String.rev s) = s.
Proof. unfold String.rev. by rewrite rev_app_rev_app, append_nil_r. Qed.

(** A string without the separator is one piece. *)
Lemma split_on_none (c : ascii) (s : string) :
  ~ occurs_in (String c "") s -> split_on c s = [s].
Proof.
  intros Hnone. unfold split_on.
  assert (Hgen : forall cur,
            split_on_go c cur s = [String.rev (String.rev_app s cur)]).
  { induction s as [|a s IH]; intros cur; [reflexivity|].
    cbn [split_on_go]. destruct (Ascii.eqb_spec a c) as [->|Hne].
    - exfalso. apply Hnone. by exists "", s.
    - rewrite IH; [reflexivity|].
      intros (before & after & ->). apply Hnone.
      by exists (String a before), after. }
  rewrite Hgen. f_equal. apply rev_rev.
Qed.

(** The property list of an invoice holds the defined fields. *)
Lemma defined_properties (g : string -> JsValue) (names : list string) (f : string) :
  default JUndefined
    (assoc_get f
       (List.filter (fun kv : string * JsValue => negb (is_undefined (snd kv)))
          (map (fun k => (k, g k)) names)))
  = if existsb (String.eqb f) names then g f else JUndefined.
Proof.
  induction names as [|k names IH]; [reflexivity|].
  cbn [map List.filter snd existsb].
  destruct (String.eqb_spec f k) as [<-|Hne]; cbn [orb].
  - destruct (g f) eqn:Eg; cbn [is_undefined negb assoc_get];
      rewrite ?String.eqb_refl; try reflexivity.
    rewrite IH. by destruct (existsb _ _).
  - destruct (is_undefined (g k)); cbn [negb assoc_get]; [exact IH|].
    apply String.eqb_neq in Hne. by rewrite Hne.
Qed.

(** The old value of a top-level path is the field of the invoice. *)
Lemma getFieldValue_top_level (inv : Invoice) (f : string) :
  f <> "" -> ~ occurs_in "/" f ->
  getFieldValue (invoice_to_js inv) f = invoice_get inv f.
Proof.
  intros Hne Hslash. unfold getFieldValue.
  rewrite (split_on_none "/"%char f Hslash). cbn [List.filter].
  apply String.eqb_neq in Hne. rewrite Hne. cbn [negb walk].
  unfold invoice_to_js. cbn [truthy is_object andb own_prop].
  rewrite (defined_properties (invoice_get inv)).
  unfold invoice_get. cbn [existsb].
  repeat match goal with
         | |- context [if String.eqb f ?k then _ else _] =>
             lazymatch goal with
             | |- (if String.eqb f k || _ then _ else _) = _ =>
                 destruct (String.eqb f k); [reflexivity|cbn [orb]]
             end
         end.
  reflexivity.
Qed.

(** C8.  [induceRules] on a record and itself returns both rule lists
    empty.  More generally it returns both lists empty, and does not
    throw, when the patch holds no add or replace operation, and when
    every add or replace operation of the patch carries the value the
    system output already has at its path; for a path of one property
    that old value is the field of the system output. *)
Theorem induceRules_without_changes `{Host} (now : string) (nowMs : Z) :
  let nothing := Some {| vendorRules := []; correctionRules := [] |} in
  let writes (o : PatchOperation) := op o = OpAdd \/ op o = OpReplace in
  (forall x, induceRules now nowMs x x = nothing)
  /\ (forall systemOutput humanCorrection,
        (forall o, In o (computeDiff systemOutput humanCorrection) -> ~ writes o) ->
        induceRules now nowMs systemOutput humanCorrection = nothing)
  /\ (forall systemOutput humanCorrection,
        (forall o, In o (computeDiff systemOutput humanCorrection) -> writes o ->
           strict_eq
             (getFieldValue (invoice_to_js systemOutput) (drop_first (path o)))
             (value o) = true) ->
        induceRules now nowMs systemOutput humanCorrection = nothing)
  /\ (forall systemOutput humanCorrection,
        (forall o, In o (computeDiff systemOutput humanCorrection) -> writes o ->
           exists field,
             path o = "/" ++ field /\ field <> "" /\ ~ occurs_in "/" field
             /\ strict_eq (invoice_get systemOutput field) (value o) = true) ->
        induceRules now nowMs systemOutput humanCorrection = nothing).
Proof.
  cbn zeta.
  assert (Hsame : forall systemOutput humanCorrection,
            (forall o, In o (computeDiff systemOutput humanCorrection) ->
               op o = OpAdd \/ op o = OpReplace ->
               strict_eq
                 (getFieldValue (invoice_to_js systemOutput) (drop_first (path o)))
                 (value o) = true) ->
            induceRules now nowMs systemOutput humanCorrection = Some empty_result).
  { intros systemOutput humanCorrection Hops. unfold induceRules.
    destruct (length _ =? 0)%nat; [reflexivity|].
    apply induce_changes_unchanged. intros f v Hin.
    apply extractChanges_from in Hin as (o & Ho & Hw & -> & ->).
    by apply Hops. }
  split; [|split; [|split]].
  - intros x. unfold induceRules, computeDiff. by rewrite createPatch_same.
  - intros systemOutput humanCorrection Hnone. apply Hsame.
    intros o Ho Hw. by destruct (Hnone o Ho).
  - exact Hsame.
  - intros systemOutput humanCorrection Htop. apply Hsame.
    intros o Ho Hw. destruct (Htop o Ho Hw) as (field & -> & Hne & Hslash & Heq).
    change (drop_first ("/" ++ field)) with field.
    by rewrite getFieldValue_top_level.
Qed.

(** ** Mapping induction and lookup *)

















(** ** Further properties of the store *)

(** X1.  The fingerprint does not tell a falsy date from the empty string
    nor a falsy total from 0: an invoice without a total and one with
    the total 0 have the same fingerprint. *)
Theorem fingerprint_of_falsy_date_and_total `{Host} (vendor invoiceNumber : string)
    (date total : JsValue) :
  (truthy date = false ->
   generateInvoiceFingerprint vendor invoiceNumber date total
   = generateInvoiceFingerprint vendor invoiceNumber (JStr "") total)
  /\ (truthy total = false ->
      generateInvoiceFingerprint vendor invoiceNumber date total
      = generateInvoiceFingerprint vendor invoiceNumber date (JNum 0)).
Proof.
  unfold generateInvoiceFingerprint, js_or.
  split; intros Hfalsy; rewrite Hfalsy; reflexivity.
Qed.

(** X2.  A call of [decide] that returns leaves the fingerprint of its
    invoice recorded, and no later call on the store removes a recorded
    fingerprint. *)
Theorem fingerprints_are_recorded_and_kept `{Host} :
  (forall now context proposals st contract st',
     decide now context proposals st = Some (contract, st') ->
     isDuplicate st' (fingerprint_of (invoice context)) = true)
  /\ (forall calls st fingerprint,
        isDuplicate st fingerprint = true ->
        isDuplicate (run_calls calls st) fingerprint = true).
Proof.
  split.
  - intros now context proposals st contract st' Hdec.
    rewrite (decide_store _ _ _ _ _ _ Hdec).
    destruct (isDuplicate st (fingerprint_of (invoice context))) eqn:E;
      [exact E|apply isDuplicate_recorded].
  - intros calls st fingerprint. apply isDuplicate_run_calls.
Qed.

Lemma length_filter_map {A B} (f : A -> B) (p : B -> bool) (l : list A) :
  length (List.filter p (map f l)) = length (List.filter (fun x => p (f x)) l).
Proof.
  induction l as [|x l IH]; [reflexivity|]. cbn [map List.filter].
  destruct (p (f x)); cbn [length]; by rewrite IH.
Qed.

(** X3.  After a sequence of [recordResolution] calls on a fresh store the
    counters of a rule count its calls: all of them, the accepted ones
    and the rejected ones. *)
Theorem resolution_counters_count_calls (rs : list Resolution) (ruleId : string) :
  let m := getResolutionMemory (record_all rs empty_store) ruleId in
  let calls := List.filter (fun r => String.eqb (res_ruleId r) ruleId) rs in
  rm_totalApplications m = length calls
  /\ rm_acceptedCount m
     = length (List.filter
                 (fun r => match res_outcome r with ACCEPTED => true | _ => false end)
                 calls)
  /\ rm_rejectedCount m
     = length (List.filter
                 (fun r => match res_outcome r with REJECTED => true | _ => false end)
                 calls).
Proof.
  cbn zeta. destruct (record_all_state rs ruleId) as (Ht & Ha & Hr & _).
  rewrite Ht, Ha, Hr. unfold items_for.
  rewrite length_map, !length_filter_map. done.
Qed.

(** X4.  [recordResolution] writes the row of its rule and nothing else. *)
Theorem recordResolution_touches_one_rule (ruleId invoiceId : string)
    (outcome : Outcome) (tUsed tEntry : string) (st : MemoryStore) :
  let st' := recordResolution ruleId invoiceId outcome tUsed tEntry st in
  (forall r, r <> ruleId -> getResolutionMemory st' r = getResolutionMemory st r)
  /\ vendor_memories st' = vendor_memories st
  /\ correction_memories st' = correction_memories st
  /\ processed_invoices st' = processed_invoices st.
Proof.
  cbn zeta. split; [|done].
  intros r Hne. by apply get_after_record_other.
Qed.

Lemma find_filter_app_same {A} (key : A -> string) (row : A) (rows : list A) :
  List.find (fun r => String.eqb (key r) (key row))
    (List.filter (fun r => negb (String.eqb (key r) (key row))) rows ++ [row])%list
  = Some row.
Proof.
  induction rows as [|r rows IH]; cbn [List.filter app List.find].
  - by rewrite String.eqb_refl.
  - destruct (String.eqb (key r) (key row)) eqn:E; cbn [negb]; [exact IH|].
    cbn [app List.find]. by rewrite E.
Qed.

Lemma find_filter_app_other {A} (key : A -> string) (row : A) (rows : list A) id :
  id <> key row ->
  List.find (fun r => String.eqb (key r) id)
    (List.filter (fun r => negb (String.eqb (key r) (key row))) rows ++ [row])%list
  = List.find (fun r => String.eqb (key r) id) rows.
Proof.
  intros Hne. induction rows as [|r rows IH]; cbn [List.filter app List.find].
  - destruct (String.eqb_spec (key row) id); congruence.
  - destruct (String.eqb_spec (key r) (key row)) as [Heq|Hneq]; cbn [negb].
    + rewrite IH. destruct (String.eqb_spec (key r) id); congruence.
    + cbn [app List.find]. by rewrite IH.
Qed.

(** X5.  A saved vendor memory is read back under its id, with an absent
    [defaults] read back as the empty object; the memories of the other
    ids are as before; [updateVendorPattern] on an unknown vendor does
    nothing. *)
Theorem saved_vendor_memory_is_read_back (memory : VendorMemory) (st : MemoryStore) :
  getVendorMemory (saveVendorMemory memory st) (vm_id memory)
  = Some {| vm_id := vm_id memory;
            vm_vendorName := vm_vendorName memory;
            vm_fingerprints := vm_fingerprints memory;
            vm_defaults := Some (match vm_defaults memory with
                                 | Some defaults => defaults
                                 | None => []
                                 end);
            vm_patterns := vm_patterns memory;
            vm_createdAt := vm_createdAt memory;
            vm_updatedAt := vm_updatedAt memory |}
  /\ (forall id, id <> vm_id memory ->
        getVendorMemory (saveVendorMemory memory st) id = getVendorMemory st id)
  /\ (forall vendorId field pattern now,
        getVendorMemory st vendorId = None ->
        updateVendorPattern vendorId field pattern now st = st).
Proof.
  split; [|split].
  - unfold getVendorMemory, saveVendorMemory, insert_or_replace.
    cbn [vendor_memories set_vendor_memories].
    change (vm_id memory) with (vm_id (stored_vendor memory)) at 1 2.
    rewrite (find_filter_app_same vm_id). unfold stored_vendor.
    by destruct (vm_defaults memory).
  - intros id Hne. unfold getVendorMemory, saveVendorMemory, insert_or_replace.
    cbn [vendor_memories set_vendor_memories].
    by apply (find_filter_app_other vm_id (stored_vendor memory)).
  - intros vendorId field pattern now Hnone. unfold updateVendorPattern.
    by rewrite Hnone.
Qed.

(** ** Further properties of the engines *)



(** X7.  [recordResolutions] counts a proposal of a rule as accepted when
    the human correction does not carry the proposal's field. *)
Theorem omitted_field_counts_as_accepted (field : string)
    (proposal : FieldConfidence) (ruleId : string) (humanCorrection : Invoice)
    (now : string) (st : MemoryStore) :
  fc_ruleId proposal = Some ruleId ->
  String.eqb ruleId "" = false ->
  is_undefined (invoice_get humanCorrection field) = true ->
  let st' := recordResolutions [(field, proposal)] humanCorrection now st in
  rm_acceptedCount (getResolutionMemory st' ruleId)
  = S (rm_acceptedCount (getResolutionMemory st ruleId))
  /\ rm_rejectedCount (getResolutionMemory st' ruleId)
     = rm_rejectedCount (getResolutionMemory st ruleId)
  /\ rm_totalApplications (getResolutionMemory st' ruleId)
     = S (rm_totalApplications (getResolutionMemory st ruleId)).
Proof.
  intros Hid Hne Hundef. cbn zeta.
  unfold recordResolutions. cbn [fold_left record_one].
  rewrite Hid, Hne, Hundef, orb_true_r. cbn [negb].
  destruct (get_after_record_same ruleId (inv_id humanCorrection) ACCEPTED now now st)
    as (Ht & Ha & Hr & _).
  rewrite Ht, Ha, Hr. lia.
Qed.

(** X7, on a correction that carries no currency. *)
Lemma omitted_field_counts_as_accepted_witness :
  rm_acceptedCount
    (getResolutionMemory
       (recordResolutions [("currency", proposal_currency_rule)] invoice_date_only
          "2024-01-02T00:00:00.000Z" empty_store)
       "vendor-1-currency")
  = S (rm_acceptedCount (getResolutionMemory empty_store "vendor-1-currency"))
  /\ rm_rejectedCount
       (getResolutionMemory
          (recordResolutions [("currency", proposal_currency_rule)] invoice_date_only
             "2024-01-02T00:00:00.000Z" empty_store)
          "vendor-1-currency")
     = rm_rejectedCount (getResolutionMemory empty_store "vendor-1-currency")
  /\ rm_totalApplications
       (getResolutionMemory
          (recordResolutions [("currency", proposal_currency_rule)] invoice_date_only
             "2024-01-02T00:00:00.000Z" empty_store)
          "vendor-1-currency")
     = S (rm_totalApplications (getResolutionMemory empty_store "vendor-1-currency")).
Proof.
  apply (omitted_field_counts_as_accepted "currency"
           proposal_currency_rule
           "vendor-1-currency" invoice_date_only "2024-01-02T00:00:00.000Z"
           empty_store); reflexivity.
Defined.


(** ** Further properties of the diff utility and of induction *)













(** X11.  Arithmetic induction looks at the tax amount and the net amount
    only, and only when the system output has no value (or the value 0)
    for the corrected field; the rule it emits is stamped with the time
    of the induction, was never used, decays with factor 0.95 and has
    confidence 0.95 or 0.90. *)
Theorem arithmetic_induction_fields `{Host} (now : string) (nowMs : Z)
    (field : string) (correctedValue : Q) (inv : Invoice) :
  (field <> "taxAmount" -> field <> "netAmount" ->
   induceArithmeticFormula now nowMs field correctedValue inv = Some None)
  /\ (truthy (invoice_get inv field) = true ->
      induceArithmeticFormula now nowMs field correctedValue inv = Some None)
  /\ (forall rule,
        induceArithmeticFormula now nowMs field correctedValue inv
        = Some (Some rule) ->
        cm_createdAt rule = now
        /\ cm_lastUsed rule = None
        /\ cm_decayFactor rule = fl (95 # 100)
        /\ (cm_confidence rule = fl (95 # 100)
            \/ cm_confidence rule = fl (90 # 100))).
Proof.
  unfold induceArithmeticFormula, hypothesis_inclusive, hypothesis_exclusive,
    hypothesis_net.
  split; [|split].
  - intros Ht Hn. apply String.eqb_neq in Ht, Hn. by rewrite Ht, Hn.
  - intros Htruthy.
    destruct (String.eqb_spec field "taxAmount") as [->|_].
    { change (invoice_get inv "taxAmount") with (inv_taxAmount inv) in Htruthy.
      rewrite Htruthy. cbn [negb andb]. rewrite !andb_false_r. reflexivity. }
    destruct (String.eqb_spec field "netAmount") as [->|_]; [|reflexivity].
    change (invoice_get inv "netAmount") with (inv_netAmount inv) in Htruthy.
    rewrite Htruthy. cbn [negb andb]. rewrite !andb_false_r. reflexivity.
  - intros rule.
    repeat match goal with
           | |- context [if ?b then _ else _] => destruct b
           | |- context [match regex_test ?p ?t with _ => _ end] =>
               destruct (regex_test p t) as [[|]|]
           end;
      try discriminate;
      intros [= <-]; cbn [formula_rule cm_createdAt cm_lastUsed cm_decayFactor
                            cm_confidence];
      repeat split; try reflexivity; (by left) || (by right).
Qed.
